(** * SkyBot: a shallow embedding of the RAG orchestration core

    The development follows the layout of the repository:

    - [app/core/config.py]      : the configuration snapshot ([Config]);
    - [app/services/ingest.py]  : [_load_file], [ingest_file];
    - [app/services/chatbot.py] : [_call_groq], [_build_prompt] and the
                                  [RAGChatbot] methods;
    - [app/api/routes.py]       : the [/ask], [/upload], [/status] and
                                  [/clear-history] handlers (module [Routes]).

    Python strings are modelled by [string], read as the UTF-8 encoding of the
    Python [str].  External collaborators (the vector store, the document
    loaders, the file system and the Groq endpoint) are oracles: records of
    functions that give the outcome of each call.  Every call to one of them
    is written to a trace of [event]s, so that "no LLM call" and "before any
    ingestion attempt" are statements about that trace. *)

From Stdlib Require Import ZArith List String Ascii Bool Lia DecimalString.
From Stdlib Require Import Floats.
Import ListNotations.

Local Open Scope list_scope.
Local Open Scope string_scope.

(** ** Python values and exceptions *)

(** The exception classes the program raises or catches.  [except Exception]
    catches every one of them. *)
Inductive exn_class :=
| ValueError
| OSError
| PermissionError        (* a subclass of OSError *)
| Timeout                (* requests.exceptions.Timeout *)
| ReadTimeout            (* a subclass of Timeout *)
| ConnectTimeout         (* a subclass of Timeout *)
| HTTPError              (* requests.exceptions.HTTPError *)
| ConnectionError
| JSONDecodeError
| KeyError
| IndexError
| TypeError
| AttributeError
| RuntimeError.

Definition exn_class_eqb (a b : exn_class) : bool :=
  match a, b with
  | ValueError, ValueError | OSError, OSError
  | PermissionError, PermissionError | Timeout, Timeout
  | ReadTimeout, ReadTimeout | ConnectTimeout, ConnectTimeout
  | HTTPError, HTTPError | ConnectionError, ConnectionError
  | JSONDecodeError, JSONDecodeError | KeyError, KeyError
  | IndexError, IndexError | TypeError, TypeError
  | AttributeError, AttributeError | RuntimeError, RuntimeError => true
  | _, _ => false
  end.

(** [issubclass c base] for the two families an [except] clause of the
    program names: [OSError] and [requests.exceptions.Timeout]. *)
Definition issubclass (c base : exn_class) : bool :=
  exn_class_eqb c base ||
  match base, c with
  | OSError, PermissionError => true
  | Timeout, (ReadTimeout | ConnectTimeout) => true
  | _, _ => false
  end.

(** The part of a [requests.Response] the client reads. *)
#[warnings="-register-all"]
Inductive json :=
| JNull
| JBool (b : bool)
| JInt (n : Z)
| JFloat (f : float)
| JString (s : string)
| JArray (items : list json)
| JObject (fields : list (string * json)).

Record Response := {
  status_code : Z;
  text : string;
  (* [response.json()]: [None] when the body does not decode. *)
  json_body : option json
}.

Record exn := {
  exn_cls : exn_class;
  exn_msg : string;                 (* str(exc) *)
  exn_response : option Response    (* exc.response, for an HTTPError *)
}.

Definition mk_exn (c : exn_class) (msg : string) : exn :=
  {| exn_cls := c; exn_msg := msg; exn_response := None |}.

Definition isinstance (e : exn) (base : exn_class) : bool :=
  issubclass (exn_cls e) base.

Inductive result (A : Type) :=
| Ok (a : A)
| Raise (e : exn).
Arguments Ok {A} a.
Arguments Raise {A} e.

(** What the Python runtime does and is not re-implemented here:
    [str.lower], [repr] of a [str], [str()] of a decoded JSON value that is
    not itself a [str], and the comparison [score >= floor] of a score
    returned by the similarity engine (a [numpy.float32]) with a Python
    [float]: NumPy evaluates it in binary64 before version 2 and in float32
    from version 2 on. *)
Class PyRuntime := {
  str_lower : string -> string;
  str_repr : string -> string;
  json_repr : json -> string;
  score_ge : float -> float -> bool      (* score, floor *)
}.

(** [format(v)] inside an f-string: a [str] is inserted as it is. *)
Definition py_format `{PyRuntime} (v : json) : string :=
  match v with
  | JString s => s
  | other => json_repr other
  end.

(** ** Strings *)

Definition str_of_nat (n : nat) : string :=
  NilEmpty.string_of_uint (Nat.to_uint n).

Definition str_of_Z (z : Z) : string :=
  NilEmpty.string_of_int (Z.to_int z).

(** [sep.join(parts)] *)
Fixpoint join (sep : string) (parts : list string) : string :=
  match parts with
  | [] => ""
  | [p] => p
  | p :: rest => p ++ sep ++ join sep rest
  end.

(** [sub in s] *)
Definition contains (sub s : string) : Prop :=
  exists pre post, s = pre ++ sub ++ post.

Definition bytes (l : list nat) : string :=
  string_of_list_ascii (map ascii_of_nat l).

Definition NL : string := bytes [10].
Definition DQ : string := bytes [34].

(** The 29 code points for which [str.isspace] holds, in UTF-8. *)
Definition whitespace : list string :=
  map bytes
    [ [9]; [10]; [11]; [12]; [13]; [28]; [29]; [30]; [31]; [32];
      [194; 133]; [194; 160];
      [225; 154; 128];
      [226; 128; 128]; [226; 128; 129]; [226; 128; 130]; [226; 128; 131];
      [226; 128; 132]; [226; 128; 133]; [226; 128; 134]; [226; 128; 135];
      [226; 128; 136]; [226; 128; 137]; [226; 128; 138];
      [226; 128; 168]; [226; 128; 169]; [226; 128; 175];
      [226; 129; 159];
      [227; 128; 128] ].

Definition drop (n : nat) (s : string) : string :=
  substring n (String.length s - n) s.

Definition str_rev (s : string) : string :=
  string_of_list_ascii (rev (list_ascii_of_string s)).

(** Remove leading occurrences of the tokens [toks]; [fuel] bounds the number
    of tokens removed. *)
Fixpoint strip_prefix (toks : list string) (fuel : nat) (s : string) : string :=
  match fuel with
  | O => s
  | S fuel' =>
      match find (fun t => prefix t s) toks with
      | Some t => strip_prefix toks fuel' (drop (String.length t) s)
      | None => s
      end
  end.

Definition lstrip (s : string) : string :=
  strip_prefix whitespace (String.length s) s.

Definition rstrip (s : string) : string :=
  str_rev (strip_prefix (map str_rev whitespace) (String.length s) (str_rev s)).

(** [s.strip()] *)
Definition strip (s : string) : string := rstrip (lstrip s).

(** A string made of whitespace characters only. *)
Inductive all_whitespace : string -> Prop :=
| aw_empty : all_whitespace ""
| aw_char (t s : string) :
    In t whitespace -> all_whitespace s -> all_whitespace (t ++ s).

(** ** Paths ([pathlib.PurePosixPath], [os.path]) *)

(** Split on ['/']. *)
Fixpoint split_slash (cur : string) (s : string) : list string :=
  match s with
  | EmptyString => [str_rev cur]
  | String c rest =>
      if Ascii.eqb c "/"%char then str_rev cur :: split_slash "" rest
      else split_slash (String c cur) rest
  end.

(** The components pathlib keeps: empty ones and ["."] are dropped. *)
Definition path_parts (p : string) : list string :=
  filter (fun c => negb (String.eqb c "" || String.eqb c ".")) (split_slash "" p).

(** [Path(p).name] *)
Definition path_name (p : string) : string :=
  last (path_parts p) "".

(** [s.rfind('.')], [None] standing for [-1]. *)
Fixpoint rfind_dot (i : nat) (s : string) : option nat :=
  match s with
  | EmptyString => None
  | String c rest =>
      match rfind_dot (S i) rest with
      | Some j => Some j
      | None => if Ascii.eqb c "."%char then Some i else None
      end
  end.

(** [Path(p).suffix]: [name[i:]] when [0 < i < len(name) - 1] for
    [i = name.rfind('.')], and [''] otherwise. *)
Definition path_suffix (p : string) : string :=
  let name := path_name p in
  match rfind_dot 0 name with
  | Some i =>
      if (0 <? i)%nat && (S i <? String.length name)%nat
      then drop i name else ""
  | None => ""
  end.

(** [base / child] for a relative [child]. *)
Definition path_join (base child : string) : string :=
  base ++ "/" ++ child.

(** [os.path.basename(p)]: what follows the last ['/']. *)
Definition basename (p : string) : string :=
  last (split_slash "" p) "".

(** [l[start:]] with Python's treatment of a negative or too large [start]. *)
Definition slice_from {A : Type} (start : Z) (l : list A) : list A :=
  let len := Z.of_nat (List.length l) in
  let i := if (start <? 0)%Z then Z.max (len + start) 0 else Z.min start len in
  skipn (Z.to_nat i) l.

(** ** Configuration ([app/core/config.py]) *)

Record Config := {
  GROQ_MODEL : string;
  GROQ_TIMEOUT : Z;
  EMBEDDING_MODEL : string;
  FAISS_INDEX_PATH : string;
  UPLOAD_DIR : string;
  RAG_TOP_K : Z;
  RAG_MIN_SCORE : float;
  MAX_HISTORY_LENGTH : Z
}.

(** The values used when the environment sets none of the variables. *)
Definition default_config : Config := {|
  GROQ_MODEL := "llama-3.3-70b-versatile";
  GROQ_TIMEOUT := 45;
  EMBEDDING_MODEL := "all-MiniLM-L6-v2";
  FAISS_INDEX_PATH := "faiss_index";
  UPLOAD_DIR := "uploads";
  RAG_TOP_K := 4;
  RAG_MIN_SCORE := 0x1.3333333333333p-1%float;   (* float("0.6") *)
  MAX_HISTORY_LENGTH := 6
|}.

Definition ALLOWED_EXTENSIONS : list string := [".txt"; ".pdf"].

(** [x in ALLOWED_EXTENSIONS] *)
Definition str_in (x : string) (l : list string) : bool :=
  existsb (String.eqb x) l.

(** ** Documents and the vector store *)

Record Document := {
  page_content : string;
  (* [metadata.get("source")] *)
  source : option string
}.

(** What [RAGChatbot.info] can see of [vectorstore.docstore]. *)
Inductive docstore_view :=
| DocstoreMissing            (* no attribute, [None], or falsy *)
| DocstoreWithoutDict        (* present, but has no [_dict] *)
| DocstoreDict (size : nat)  (* [len(docstore._dict)] *)
| DocstoreRaises (e : exn).  (* the introspection itself raises *)

(** A FAISS vector store, seen through the three things the chatbot does
    with it. A score is held as the binary64 float of the same value. *)
Record FAISS := {
  similarity_search_with_score : string -> Z -> result (list (Document * float));
  similarity_search : string -> Z -> result (list Document);
  docstore : docstore_view
}.

(** ** Effects *)

Inductive event :=
| EvLoadText (path : string)
| EvLoadPdf (path : string)
| EvSplit
| EvEmbeddings
| EvFromDocuments
| EvMkdirIndex
| EvSaveLocal
| EvLoadLocal
| EvSaveUpload (path : string)
| EvScoredSearch (question : string) (k : Z)
| EvPlainSearch (question : string) (k : Z)
| EvGroqPost (prompt : string).

(** Code that holds no chatbot state: an outcome and the calls made. *)
Definition IO (A : Type) : Type := result A * list event.

Definition io_ret {A} (a : A) : IO A := (Ok a, []).
Definition io_raise {A} (e : exn) : IO A := (Raise e, []).
Definition io_bind {A B} (m : IO A) (f : A -> IO B) : IO B :=
  match m with
  | (Ok a, t1) => let '(r, t2) := f a in (r, (t1 ++ t2)%list)
  | (Raise e, t1) => (Raise e, t1)
  end.
(** One call to an external collaborator. *)
Definition call {A} (ev : event) (outcome : result A) : IO A := (outcome, [ev]).
(** An outcome that is not traced. *)
Definition io_of_result {A} (r : result A) : IO A := (r, []).
(** [try: body  except Exception as e: handler(e)] *)
Definition io_try {A} (body : IO A) (handler : exn -> IO A) : IO A :=
  match body with
  | (Ok a, t1) => (Ok a, t1)
  | (Raise e, t1) => let '(r, t2) := handler e in (r, (t1 ++ t2)%list)
  end.

Declare Scope io_scope.
Delimit Scope io_scope with io.
Notation "x <- m ;; k" := (io_bind m (fun x => k))
  (at level 61, m at next level, right associativity) : io_scope.
Notation "m ;; k" := (io_bind m (fun _ => k))
  (at level 61, right associativity) : io_scope.

(** The oracles of the ingestion pipeline and of the upload handler. *)
Record IngestEnv := {
  text_loader : string -> result (list Document);     (* TextLoader(p).load() *)
  pdf_loader : string -> result (list Document);      (* PyPDFLoader(p).load() *)
  split_documents : list Document -> result (list Document);
  get_embeddings : string -> result string;           (* by model name *)
  from_documents : list Document -> string -> result FAISS;
  mkdir_index : string -> result unit;
  save_local : FAISS -> string -> result unit;
  (* [p.exists()] and [any(p.iterdir())]: either can raise *)
  index_dir_populated : string -> result bool;
  load_local : string -> string -> result FAISS;
  save_upload : string -> string -> result unit       (* path, content *)
}.

(** The Groq endpoint: what [requests.post] does for a given prompt.
    [requests] raises [HTTPError] from [raise_for_status] only, so a failed
    post is a timeout or another transport error. *)
Inductive post_outcome :=
| PostTimeout (connecting : bool) (msg : string)
| PostFailed (msg : string)
| PostResponse (r : Response).

Record World := {
  groq_post : string -> post_outcome;
  ingest_env : IngestEnv
}.

(** ** Ingestion ([app/services/ingest.py]) *)

Section Ingest.
Context `{PyRuntime}.
Variable cfg : Config.
Variable env : IngestEnv.
Local Open Scope io_scope.

Definition _get_embeddings : IO string :=
  call EvEmbeddings (get_embeddings env (EMBEDDING_MODEL cfg)).

Definition _split_documents (docs : list Document) : IO (list Document) :=
  call EvSplit (split_documents env docs).

Definition _load_file (file_path : string) : IO (list Document) :=
  let ext := str_lower (path_suffix file_path) in
  if String.eqb ext ".txt" then call (EvLoadText file_path) (text_loader env file_path)
  else if String.eqb ext ".pdf" then call (EvLoadPdf file_path) (pdf_loader env file_path)
  else io_raise (mk_exn ValueError ("Unsupported file extension: " ++ str_repr ext)).

Definition ingest_file (file_path : string) (save_to_disk : bool) : IO FAISS :=
  docs <- _load_file file_path ;;
  match docs with
  | [] => io_raise (mk_exn ValueError
                      ("No content could be extracted from " ++ file_path))
  | _ :: _ =>
      chunks <- _split_documents docs ;;
      embeddings <- _get_embeddings ;;
      vectorstore <- call EvFromDocuments (from_documents env chunks embeddings) ;;
      (if save_to_disk then
         call EvMkdirIndex (mkdir_index env (FAISS_INDEX_PATH cfg)) ;;
         call EvSaveLocal (save_local env vectorstore (FAISS_INDEX_PATH cfg))
       else io_ret tt) ;;
      io_ret vectorstore
  end.

Definition load_index : IO (option FAISS) :=
  (* the test of the directory is outside the [try] *)
  populated <- io_of_result (index_dir_populated env (FAISS_INDEX_PATH cfg)) ;;
  if negb populated then io_ret None
  else
    io_try
      (embeddings <- _get_embeddings ;;
       vs <- call EvLoadLocal (load_local env (FAISS_INDEX_PATH cfg) embeddings) ;;
       io_ret (Some vs))
      (fun _ => io_ret None).

End Ingest.

(** ** Groq LLM client ([app/services/chatbot.py]) *)

Definition is_continuation_byte (c : ascii) : bool :=
  let n := nat_of_ascii c in (128 <=? n)%nat && (n <? 192)%nat.

Fixpoint continuation_bytes (s : string) : string :=
  match s with
  | String c rest =>
      if is_continuation_byte c then String c (continuation_bytes rest) else ""
  | EmptyString => ""
  end.

(** [v[key]] for a [str] key, on a value decoded from JSON. *)
Definition getitem (v : json) (key : string) : result json :=
  match v with
  | JObject fields =>
      match find (fun kv => String.eqb (fst kv) key) fields with
      | Some kv => Ok (snd kv)
      | None => Raise (mk_exn KeyError ("'" ++ key ++ "'"))
      end
  | JArray _ => Raise (mk_exn TypeError "list indices must be integers or slices, not str")
  | JString _ => Raise (mk_exn TypeError "string indices must be integers, not 'str'")
  | _ => Raise (mk_exn TypeError "object is not subscriptable")
  end.

(** [v[0]] *)
Definition getitem0 (v : json) : result json :=
  match v with
  | JArray (x :: _) => Ok x
  | JArray [] => Raise (mk_exn IndexError "list index out of range")
  | JObject _ => Raise (mk_exn KeyError "0")
  | JString (String c rest) => Ok (JString (String c (continuation_bytes rest)))
  | JString EmptyString => Raise (mk_exn IndexError "string index out of range")
  | _ => Raise (mk_exn TypeError "object is not subscriptable")
  end.

(** [response.raise_for_status()]: [requests] raises for 4xx and 5xx, with
    the response attached (the message is shortened here). *)
Definition raise_for_status (r : Response) : result unit :=
  if (400 <=? status_code r)%Z && (status_code r <? 600)%Z then
    Raise {| exn_cls := HTTPError;
             exn_msg := str_of_Z (status_code r) ++ " Error";
             exn_response := Some r |}
  else Ok tt.

(** [response.json()] *)
Definition response_json (r : Response) : result json :=
  match json_body r with
  | Some v => Ok v
  | None => Raise (mk_exn JSONDecodeError "Expecting value")
  end.

Definition requests_post (w : World) (prompt : string) : IO Response :=
  call (EvGroqPost prompt)
    match groq_post w prompt with
    | PostTimeout connecting msg =>
        Raise (mk_exn (if connecting then ConnectTimeout else ReadTimeout) msg)
    | PostFailed msg => Raise (mk_exn ConnectionError msg)
    | PostResponse r => Ok r
    end.

Definition MSG_TIMEOUT : string :=
  "⏳ La requête a pris trop de temps. Veuillez réessayer avec une question plus courte.".
Definition MSG_API_ERROR (status : Z) : string :=
  "⚠️ Erreur API (" ++ str_of_Z status ++ "). Veuillez réessayer.".
Definition MSG_UNEXPECTED : string :=
  "❌ Une erreur inattendue s'est produite. Veuillez réessayer.".

Local Open Scope io_scope.

Definition _call_groq (w : World) (prompt : string) : IO json :=
  io_try
    (response <- requests_post w prompt ;;
     io_of_result (raise_for_status response) ;;
     body <- io_of_result (response_json response) ;;
     choices <- io_of_result (getitem body "choices") ;;
     choice <- io_of_result (getitem0 choices) ;;
     message <- io_of_result (getitem choice "message") ;;
     io_of_result (getitem message "content"))
    (fun exc =>
       if isinstance exc Timeout then io_ret (JString MSG_TIMEOUT)
       else if isinstance exc HTTPError then
         match exn_response exc with
         | Some r => io_ret (JString (MSG_API_ERROR (status_code r)))
         | None => io_raise (mk_exn AttributeError
                     "'NoneType' object has no attribute 'status_code'")
         end
       else io_ret (JString MSG_UNEXPECTED)).

Local Close Scope io_scope.

(** ** Prompt builder *)

(** [Turn = tuple[str, str]]: (question, answer). *)
Abbreviation Turn := (string * json)%type.

Section Prompt.
Context `{PyRuntime}.

Definition source_label (doc : Document) : string :=
  match source doc with
  | Some s => if String.eqb s "" then "" else " [Source: " ++ basename s ++ "]"
  | None => ""
  end.

Definition passage (i : nat) (doc : Document) : string :=
  "--- Extrait " ++ str_of_nat i ++ source_label doc ++ " ---" ++ NL
    ++ page_content doc.

(** [for i, doc in enumerate(context_docs, start=i)] *)
Fixpoint passages (i : nat) (context_docs : list Document) : list string :=
  match context_docs with
  | [] => []
  | doc :: rest => passage i doc :: passages (S i) rest
  end.

Definition context_block (context_docs : list Document) : string :=
  join (NL ++ NL) (passages 1 context_docs).

Definition history_line (idx : nat) (t : Turn) : string :=
  "Q" ++ str_of_nat idx ++ ": " ++ fst t ++ NL
    ++ "A" ++ str_of_nat idx ++ ": " ++ py_format (snd t).

Fixpoint history_lines (idx : nat) (turns : list Turn) : list string :=
  match turns with
  | [] => []
  | t :: rest => history_line idx t :: history_lines (S idx) rest
  end.

Definition history_block (history : list Turn) : string :=
  match history with
  | [] => ""
  | _ :: _ =>
      "HISTORIQUE RÉCENT:" ++ NL
        ++ join (NL ++ NL) (history_lines 1 (slice_from (-3) history))
        ++ NL ++ NL
  end.

Definition INSTRUCTIONS : string :=
  "Tu es SkyBot, un assistant IA spécialisé dans l'analyse de documents." ++ NL
  ++ NL
  ++ "INSTRUCTIONS:" ++ NL
  ++ "1. Réponds UNIQUEMENT en te basant sur le CONTEXTE fourni ci-dessous." ++ NL
  ++ "2. Si l'information est absente du contexte, réponds : " ++ DQ
  ++ "Je ne trouve pas cette information dans le document." ++ DQ ++ NL
  ++ "3. Sois précis, concis et factuel. Ne jamais inventer ou extrapoler." ++ NL
  ++ "4. Cite tes sources quand c'est pertinent." ++ NL
  ++ "5. Structure ta réponse clairement." ++ NL
  ++ NL.

Definition context_section (context_docs : list Document) : string :=
  "CONTEXTE DOCUMENTAIRE:" ++ NL ++ context_block context_docs ++ NL ++ NL.

Definition question_section (question : string) : string :=
  "QUESTION: " ++ question ++ NL ++ NL
  ++ "RÉPONSE (basée uniquement sur le contexte):".

Definition _build_prompt (question : string) (context_docs : list Document)
    (history : list Turn) : string :=
  INSTRUCTIONS ++ history_block history
    ++ context_section context_docs ++ question_section question.

End Prompt.

(** ** Chatbot *)

Record RAGChatbot := {
  _vectorstore : option FAISS;
  _history : list Turn
}.

(** A method of the chatbot: outcome, the instance afterwards, calls made. *)
Definition M (A : Type) : Type := RAGChatbot -> result A * RAGChatbot * list event.

Definition ret {A} (a : A) : M A := fun self => (Ok a, self, []).
Definition raise {A} (e : exn) : M A := fun self => (Raise e, self, []).
Definition bind {A B} (m : M A) (f : A -> M B) : M B :=
  fun self =>
    match m self with
    | (Ok a, self1, t1) =>
        let '(r, self2, t2) := f a self1 in (r, self2, (t1 ++ t2)%list)
    | (Raise e, self1, t1) => (Raise e, self1, t1)
    end.
Definition lift {A} (io : IO A) : M A := fun self => (fst io, self, snd io).
Definition get_self : M RAGChatbot := fun self => (Ok self, self, []).
Definition set_vectorstore (vs : option FAISS) : M unit :=
  fun self => (Ok tt, {| _vectorstore := vs; _history := _history self |}, []).
Definition set_history (h : list Turn) : M unit :=
  fun self => (Ok tt, {| _vectorstore := _vectorstore self; _history := h |}, []).
(** [try: body  except Exception as e: handler(e)] *)
Definition try_except {A} (body : M A) (handler : exn -> M A) : M A :=
  fun self =>
    match body self with
    | (Ok a, self1, t1) => (Ok a, self1, t1)
    | (Raise e, self1, t1) =>
        let '(r, self2, t2) := handler e self1 in (r, self2, (t1 ++ t2)%list)
    end.

Declare Scope chat_scope.
Delimit Scope chat_scope with chat.
Notation "x <- m ;; k" := (bind m (fun x => k))
  (at level 61, m at next level, right associativity) : chat_scope.
Notation "m ;; k" := (bind m (fun _ => k))
  (at level 61, right associativity) : chat_scope.

Definition MSG_NOT_READY : string :=
  "⚠️ Aucun document n'a été importé. "
  ++ "Veuillez importer un fichier via la zone d'upload.".
Definition MSG_NOTHING_FOUND : string :=
  "🔍 Je n'ai pas trouvé d'informations pertinentes dans le document pour répondre à votre question.".

Section Chatbot.
Context `{PyRuntime}.
Variable cfg : Config.
Variable w : World.
Local Open Scope chat_scope.

(** [RAGChatbot()]: the dataclass defaults, then [__post_init__]. *)
Definition new_chatbot : IO RAGChatbot :=
  io_bind (load_index cfg (ingest_env w))
    (fun vs => io_ret {| _vectorstore := vs; _history := [] |}).

Definition is_ready (self : RAGChatbot) : bool :=
  match _vectorstore self with
  | Some _ => true
  | None => false
  end.

Definition rebuild_from_file (file_path : string) (save_to_disk : bool) : M unit :=
  vs <- lift (ingest_file cfg (ingest_env w) file_path save_to_disk) ;;
  set_vectorstore (Some vs).

(** A method call on [self._vectorstore]; on [None] the attribute lookup
    raises. *)
Definition on_vectorstore {A} (method : string) (ev : event)
    (f : FAISS -> result A) : M A :=
  self <- get_self ;;
  match _vectorstore self with
  | Some vs => lift (call ev (f vs))
  | None => raise (mk_exn AttributeError
               ("'NoneType' object has no attribute '" ++ method ++ "'"))
  end.

(** [[doc for doc, score in pairs if score >= RAG_MIN_SCORE]] *)
Definition keep_scored (pairs : list (Document * float)) : list Document :=
  map fst (filter (fun p => score_ge (snd p) (RAG_MIN_SCORE cfg)) pairs).

Definition _retrieve (question : string) (k : Z) : M (list Document) :=
  early <-
    try_except
      (pairs <- on_vectorstore "similarity_search_with_score"
                  (EvScoredSearch question k)
                  (fun vs => similarity_search_with_score vs question k) ;;
       let docs := keep_scored pairs in
       match docs with
       | _ :: _ => ret (Some docs)      (* return docs *)
       | [] => ret None
       end)
      (fun _ => ret None) ;;
  match early with
  | Some docs => ret docs
  | None =>
      on_vectorstore "similarity_search" (EvPlainSearch question k)
        (fun vs => similarity_search vs question k)
  end.

Definition _add_to_history (question : string) (answer : json) : M unit :=
  self <- get_self ;;
  set_history (_history self ++ [(question, answer)])%list ;;
  self <- get_self ;;
  if (MAX_HISTORY_LENGTH cfg <? Z.of_nat (List.length (_history self)))%Z then
    set_history (slice_from (- MAX_HISTORY_LENGTH cfg) (_history self))
  else ret tt.

Definition ask (question : string) (k : Z) : M json :=
  self <- get_self ;;
  if negb (is_ready self) then ret (JString MSG_NOT_READY)
  else
    docs <- _retrieve question k ;;
    match docs with
    | [] => ret (JString MSG_NOTHING_FOUND)
    | _ :: _ =>
        self <- get_self ;;
        let prompt := _build_prompt question docs (_history self) in
        answer <- lift (_call_groq w prompt) ;;
        _add_to_history question answer ;;
        ret answer
    end.

Definition clear_history : M unit := set_history [].

(** The dict returned by [info()], as its items in insertion order. *)
Definition info (self : RAGChatbot) : list (string * json) :=
  match _vectorstore self with
  | None => [("status", JString "no_document")]
  | Some vs =>
      let fragment_count :=
        match docstore vs with
        | DocstoreDict size => JInt (Z.of_nat size)
        | DocstoreMissing | DocstoreWithoutDict | DocstoreRaises _ => JNull
        end in
      [("status", JString "ready");
       ("fragment_count", fragment_count);
       ("embedding_model", JString "all-MiniLM-L6-v2")]
  end.

End Chatbot.

(** ** HTTP routes ([app/api/routes.py]) *)

Module Routes.

Record TemplateContext := {
  ctx_answer : option json;
  ctx_question : option string;
  ctx_upload_message : option string;
  ctx_is_ready : bool
}.

(** The responses the handlers hand to the framework, each standing for
    the arguments it is built from: serialising the content and rendering
    the template are the framework's and are not modelled. *)
Inductive HTTPResponse :=
| JSONResponse (content : list (string * json)) (status : Z)
| TemplateResponse (name : string) (context : TemplateContext).

Definition MSG_EMPTY_QUESTION : string := "⚠️ Veuillez saisir une question.".

Definition MSG_BAD_EXTENSION (ext : string) : string :=
  "Extension non supportée : " ++ ext ++ ". Formats acceptés : .txt, .pdf".

(** [sub in s], as a test *)
Definition str_contains (sub s : string) : bool :=
  match index 0 sub s with
  | Some _ => true
  | None => false
  end.

Section Handlers.
Context `{PyRuntime}.
Variable cfg : Config.
Variable w : World.
Local Open Scope chat_scope.

(** [POST /ask] with the form field [question] and the header [accept]. *)
Definition ask (question accept : string) : M HTTPResponse :=
  let question := strip question in
  answer <-
    (if String.eqb question "" then ret (JString MSG_EMPTY_QUESTION)
     else ask cfg w question (RAG_TOP_K cfg)) ;;
  if str_contains "application/json" accept then
    ret (JSONResponse [("answer", answer); ("question", JString question)] 200)
  else
    self <- get_self ;;
    ret (TemplateResponse "index.html"
           {| ctx_answer := Some answer;
              ctx_question := Some question;
              ctx_upload_message := None;
              ctx_is_ready := is_ready self |}).

(** [POST /upload] with the file's name and content and the form field
    [save_index]. *)
Definition upload_file (file_filename file_content : string)
    (save_index : bool) : M HTTPResponse :=
  let filename := path_name file_filename in
  let ext := str_lower (path_suffix filename) in
  if negb (str_in ext ALLOWED_EXTENSIONS) then
    ret (JSONResponse
           [("ok", JBool false); ("message", JString (MSG_BAD_EXTENSION ext))]
           400)
  else
    let saved_path := path_join (UPLOAD_DIR cfg) filename in
    failed <-
      try_except
        (lift (call (EvSaveUpload saved_path)
                 (save_upload (ingest_env w) saved_path file_content)) ;;
         ret None)
        (fun exc =>
           if isinstance exc OSError then
             ret (Some (JSONResponse
                          [("ok", JBool false);
                           ("message", JString "Impossible de sauvegarder le fichier.")]
                          500))
           else raise exc) ;;
    match failed with
    | Some response => ret response
    | None =>
        try_except
          (rebuild_from_file cfg w saved_path save_index ;;
           ret (JSONResponse
                  [("ok", JBool true);
                   ("message",
                    JString ("✅ Fichier « " ++ filename ++ " » indexé avec succès."))]
                  200))
          (fun exc =>
             ret (JSONResponse
                    [("ok", JBool false);
                     ("message", JString ("Erreur d'indexation : " ++ exn_msg exc))]
                    500))
    end.

(** [GET /status]: the dict the handler returns. *)
Definition status : M (list (string * json)) :=
  self <- get_self ;;
  ret [("status", JString "ok"); ("chatbot", JObject (info self))].

(** [POST /clear-history] *)
Definition clear_history : M (list (string * json)) :=
  clear_history ;;
  ret [("ok", JBool true); ("message", JString "Historique effacé.")].

End Handlers.
End Routes.

(** ** Concrete collaborators for running the model *)

Definition ascii_lower_char (c : ascii) : ascii :=
  let n := nat_of_ascii c in
  if (65 <=? n)%nat && (n <=? 90)%nat then ascii_of_nat (n + 32) else c.

Fixpoint ascii_lower (s : string) : string :=
  match s with
  | EmptyString => EmptyString
  | String c rest => String (ascii_lower_char c) (ascii_lower rest)
  end.

(** A runtime that is right on ASCII text and compares scores in binary64
    (NumPy 1). *)
Definition ascii_runtime : PyRuntime := {|
  str_lower := ascii_lower;
  str_repr := fun s => "'" ++ s ++ "'";
  json_repr := fun _ => "None";
  score_ge := fun score floor => PrimFloat.leb floor score
|}.

(** [y] rounded to an integer, ties to even, for [|y| < 2^52]. *)
Definition round_to_integer (y : float) : float :=
  if PrimFloat.leb 0 y then (y + 0x1p52) - 0x1p52 else (y - 0x1p52) + 0x1p52.

(** The binary32 value nearest to [x] (ties to even), as C converts a
    [double] to a [float]. *)
Definition to_float32 (x : float) : float :=
  match classify x with
  | NaN | PInf | NInf | PZero | NZero => x
  | _ =>
      let '(_, e) := Z.frexp x in
      let q := Z.max (e - 24) (-149) in
      let r := Z.ldexp (round_to_integer (Z.ldexp x (- q))) q in
      if PrimFloat.ltb 0x1.fffffep127 (abs r)
      then (if PrimFloat.ltb r 0 then neg_infinity else infinity)
      else r
  end.

(** As [ascii_runtime], but comparing scores in float32 (NumPy 2): the
    floor is converted to float32 first. *)
Definition numpy2_runtime : PyRuntime := {|
  str_lower := ascii_lower;
  str_repr := fun s => "'" ++ s ++ "'";
  json_repr := fun _ => "None";
  score_ge := fun score floor => PrimFloat.leb (to_float32 floor) score
|}.

Definition doc_paris : Document :=
  {| page_content := "Paris is the capital of France.";
     source := Some "uploads/doc.txt" |}.

(** An index of one chunk, returned with score 0.75 whatever the query. *)
Definition index_paris : FAISS := {|
  similarity_search_with_score := fun _ _ => Ok [(doc_paris, 0.75%float)];
  similarity_search := fun _ _ => Ok [doc_paris];
  docstore := DocstoreDict 1
|}.

(** An index whose scored search finds nothing above the floor and whose
    plain search finds nothing at all. *)
Definition index_blank : FAISS := {|
  similarity_search_with_score := fun _ _ => Ok [(doc_paris, 0.25%float)];
  similarity_search := fun _ _ => Ok [];
  docstore := DocstoreWithoutDict
|}.

Definition doc_lyon : Document :=
  {| page_content := "Lyon is a city of France."; source := None |}.

Definition doc_rome : Document :=
  {| page_content := "Rome is the capital of Italy.";
     source := Some "uploads/italy.pdf" |}.

(** An index whose scored search ranks three chunks, the second of them
    below the floor. *)
Definition index_mixed : FAISS := {|
  similarity_search_with_score := fun _ _ =>
    Ok [(doc_paris, 0.875%float); (doc_lyon, 0.25%float); (doc_rome, 0.75%float)];
  similarity_search := fun _ _ => Ok [doc_paris; doc_lyon; doc_rome];
  docstore := DocstoreDict 3
|}.

(** An index whose one scored result has the score float32(0.7). *)
Definition index_boundary : FAISS := {|
  similarity_search_with_score := fun _ _ => Ok [(doc_paris, 0x1.666666p-1%float)];
  similarity_search := fun _ _ => Ok [doc_lyon];
  docstore := DocstoreDict 1
|}.

(** An index whose two searches both raise. *)
Definition index_broken : FAISS := {|
  similarity_search_with_score := fun _ _ => Raise (mk_exn RuntimeError "scored search failed");
  similarity_search := fun _ _ => Raise (mk_exn RuntimeError "plain search failed");
  docstore := DocstoreMissing
|}.

Definition env_ok : IngestEnv := {|
  text_loader := fun _ => Ok [doc_paris];
  pdf_loader := fun _ => Ok [doc_paris];
  split_documents := fun docs => Ok docs;
  get_embeddings := fun name => Ok name;
  from_documents := fun _ _ => Ok index_paris;
  mkdir_index := fun _ => Ok tt;
  save_local := fun _ _ => Ok tt;
  index_dir_populated := fun _ => Ok false;
  load_local := fun _ _ => Raise (mk_exn RuntimeError "no index");
  save_upload := fun _ _ => Ok tt
|}.

(** As [env_ok], but building the index fails. *)
Definition env_index_fails : IngestEnv := {|
  text_loader := fun _ => Ok [doc_paris];
  pdf_loader := fun _ => Ok [doc_paris];
  split_documents := fun docs => Ok docs;
  get_embeddings := fun name => Ok name;
  from_documents := fun _ _ => Raise (mk_exn RuntimeError "embedding failed");
  mkdir_index := fun _ => Ok tt;
  save_local := fun _ _ => Ok tt;
  index_dir_populated := fun _ => Ok false;
  load_local := fun _ _ => Raise (mk_exn RuntimeError "no index");
  save_upload := fun _ _ => Ok tt
|}.

Definition completion (content : json) : json :=
  JObject [("choices",
            JArray [JObject [("message", JObject [("content", content)])]])].

(** A Groq endpoint that answers every prompt with ["Paris."]. *)
Definition world_ok : World := {|
  groq_post := fun _ =>
    PostResponse {| status_code := 200; text := "";
                    json_body := Some (completion (JString "Paris.")) |};
  ingest_env := env_ok
|}.

(** A Groq endpoint that answers 304 with an empty body. *)
Definition world_304 : World := {|
  groq_post := fun _ =>
    PostResponse {| status_code := 304; text := ""; json_body := None |};
  ingest_env := env_ok
|}.

Definition world_index_fails : World := {|
  groq_post := groq_post world_ok;
  ingest_env := env_index_fails
|}.

Definition chatbot_empty : RAGChatbot :=
  {| _vectorstore := None; _history := [] |}.

Definition chatbot_with (vs : FAISS) (history : list Turn) : RAGChatbot :=
  {| _vectorstore := Some vs; _history := history |}.

(** ** Vocabulary of the properties *)

(** [d.get(key)] on the items of a dict *)
Definition lookup (key : string) (fields : list (string * json)) : option json :=
  option_map snd (find (fun kv => String.eqb (fst kv) key) fields).

(** The message text of the first completion of a chat-completion body:
    [body.choices[0].message.content], when the body has that shape. *)
Definition first_completion (body : json) : option json :=
  match body with
  | JObject top =>
      match lookup "choices" top with
      | Some (JArray (JObject choice :: _)) =>
          match lookup "message" choice with
          | Some (JObject message) => lookup "content" message
          | _ => None
          end
      | _ => None
      end
  | _ => None
  end.

(** The handlers of [_call_groq], applied to an exception of the body. *)
Definition groq_handler (exc : exn) : IO json :=
  if isinstance exc Timeout then io_ret (JString MSG_TIMEOUT)
  else if isinstance exc HTTPError then
    match exn_response exc with
    | Some r => io_ret (JString (MSG_API_ERROR (status_code r)))
    | None => io_raise (mk_exn AttributeError
                "'NoneType' object has no attribute 'status_code'")
    end
  else io_ret (JString MSG_UNEXPECTED).

(** What is read out of a response that [raise_for_status] lets through. *)
Definition read_completion (r : Response) : IO json :=
  (body <- io_of_result (response_json r) ;;
   choices <- io_of_result (getitem body "choices") ;;
   choice <- io_of_result (getitem0 choices) ;;
   message <- io_of_result (getitem choice "message") ;;
   io_of_result (getitem message "content"))%io.

(** A failure that the last handler of [_call_groq] takes. *)
Definition unexpected_failure (io : IO json) : Prop :=
  exists e, io = (Raise e, [])
            /\ isinstance e Timeout = false
            /\ isinstance e HTTPError = false.

(** What [_call_groq] returns, by outcome of the request. *)
Definition groq_answer (outcome : post_outcome) : json :=
  match outcome with
  | PostTimeout _ _ => JString MSG_TIMEOUT
  | PostFailed _ => JString MSG_UNEXPECTED
  | PostResponse r =>
      if (400 <=? status_code r)%Z && (status_code r <? 600)%Z
      then JString (MSG_API_ERROR (status_code r))
      else
        match json_body r with
        | Some body =>
            match first_completion body with
            | Some content => content
            | None => JString MSG_UNEXPECTED
            end
        | None => JString MSG_UNEXPECTED
        end
  end.

(** [l1] is [l2] with some elements left out, the others in the same order. *)
Inductive subseq {A : Type} : list A -> list A -> Prop :=
| subseq_nil : subseq [] []
| subseq_keep (x : A) (l1 l2 : list A) : subseq l1 l2 -> subseq (x :: l1) (x :: l2)
| subseq_skip (x : A) (l1 l2 : list A) : subseq l1 l2 -> subseq l1 (x :: l2).

(** The contract of the similarity engine: a plain search for [k] results
    returns at most [k] chunks. *)
Definition at_most_k (vs : FAISS) : Prop :=
  forall question k docs,
    similarity_search vs question k = Ok docs ->
    (Z.of_nat (List.length docs) <= k)%Z.

(** What the orchestrator is asked to do, one request after another. *)
Inductive operation :=
| OpAsk (question : string) (k : Z)
| OpClearHistory
| OpRebuild (file_path : string) (save_to_disk : bool).

Definition with_max_history (n : Z) (c : Config) : Config := {|
  GROQ_MODEL := GROQ_MODEL c;
  GROQ_TIMEOUT := GROQ_TIMEOUT c;
  EMBEDDING_MODEL := EMBEDDING_MODEL c;
  FAISS_INDEX_PATH := FAISS_INDEX_PATH c;
  UPLOAD_DIR := UPLOAD_DIR c;
  RAG_TOP_K := RAG_TOP_K c;
  RAG_MIN_SCORE := RAG_MIN_SCORE c;
  MAX_HISTORY_LENGTH := n
|}.

Section Vocabulary.
Context `{PyRuntime}.
Variable cfg : Config.
Variable w : World.

(** The scored results all lie below the score floor (none, when the engine
    returned nothing). *)
Definition all_below_floor (pairs : list (Document * float)) : Prop :=
  forall p, In p pairs -> score_ge (snd p) (RAG_MIN_SCORE cfg) = false.

(** [docs] holds the document of each pair of [pairs] whose score is at
    least [RAG_MIN_SCORE], once per such pair and in the order of [pairs];
    the documents of the other pairs are left out. *)
Inductive kept_in_order : list (Document * float) -> list Document -> Prop :=
| kept_nil : kept_in_order [] []
| kept_keep (doc : Document) (score : float)
    (pairs : list (Document * float)) (docs : list Document) :
    score_ge score (RAG_MIN_SCORE cfg) = true ->
    kept_in_order pairs docs ->
    kept_in_order ((doc, score) :: pairs) (doc :: docs)
| kept_drop (doc : Document) (score : float)
    (pairs : list (Document * float)) (docs : list Document) :
    score_ge score (RAG_MIN_SCORE cfg) = false ->
    kept_in_order pairs docs ->
    kept_in_order ((doc, score) :: pairs) docs.

(** When [_retrieve] leaves its primary path. *)
Definition fallback_condition (vs : FAISS) (question : string) (k : Z) : Prop :=
  (exists e, similarity_search_with_score vs question k = Raise e)
  \/ (exists pairs, similarity_search_with_score vs question k = Ok pairs
                    /\ all_below_floor pairs).

Definition perform (op : operation) : M unit :=
  match op with
  | OpAsk question k => bind (ask cfg w question k) (fun _ => ret tt)
  | OpClearHistory => clear_history
  | OpRebuild file_path save_to_disk =>
      rebuild_from_file cfg w file_path save_to_disk
  end.

(** The instance after a method call, whether it returned or raised. *)
Definition state_after {A} (m : M A) (self : RAGChatbot) : RAGChatbot :=
  snd (fst (m self)).

Fixpoint run (ops : list operation) (self : RAGChatbot) : RAGChatbot :=
  match ops with
  | [] => self
  | op :: rest => run rest (state_after (perform op) self)
  end.

(** The history [_add_to_history] leaves. *)
Definition appended (history : list Turn) (t : Turn) : list Turn :=
  if (MAX_HISTORY_LENGTH cfg <? Z.of_nat (List.length (history ++ [t])%list))%Z
  then slice_from (- MAX_HISTORY_LENGTH cfg) (history ++ [t])%list
  else (history ++ [t])%list.

End Vocabulary.

(** The layout as the specification words it: instruction text, context
    block, recent-history block, new question. *)
Definition spec_layout `{PyRuntime} (question : string)
    (context_docs : list Document) (history : list Turn) : string :=
  INSTRUCTIONS ++ context_section context_docs
    ++ history_block history ++ question_section question.

Definition blank_history_config : Config := with_max_history 0 default_config.

(** One retrieved chunk and one earlier turn. *)
Definition one_turn : list Turn := [("Where is Paris?", JString "In France.")].

(** ** Directory ingestion ([ingest_directory]) *)

Section IngestDirectory.
Variable cfg : Config.
Variable env : IngestEnv.
(** [DOCUMENTS_PATH] of the configuration. *)
Variable DOCUMENTS_PATH : string.
(** [DirectoryLoader(path, glob=glob, loader_cls=cls).load()], by path and
    glob. *)
Variable directory_loader : string -> string -> result (list Document).
Local Open Scope io_scope.

Definition ingest_directory (save_to_disk : bool) : IO FAISS :=
  txt <- call (EvLoadText DOCUMENTS_PATH)
           (directory_loader DOCUMENTS_PATH "**/*.txt") ;;
  pdf <- call (EvLoadPdf DOCUMENTS_PATH)
           (directory_loader DOCUMENTS_PATH "**/*.pdf") ;;
  let docs := (txt ++ pdf)%list in
  match docs with
  | [] => io_raise (mk_exn ValueError ("No documents found in " ++ DOCUMENTS_PATH))
  | _ :: _ =>
      chunks <- _split_documents env docs ;;
      embeddings <- _get_embeddings cfg env ;;
      vectorstore <- call EvFromDocuments (from_documents env chunks embeddings) ;;
      (if save_to_disk then
         call EvMkdirIndex (mkdir_index env (FAISS_INDEX_PATH cfg)) ;;
         call EvSaveLocal (save_local env vectorstore (FAISS_INDEX_PATH cfg))
       else io_ret tt) ;;
      io_ret vectorstore
  end.

End IngestDirectory.

(** ** Startup checks and the ingestion script
       ([app/core/config.py], [scripts/ingest.py]) *)

Section Script.
Variable cfg : Config.
Variable env : IngestEnv.
(** [GROQ_API_KEY] and [DOCUMENTS_PATH] of the configuration. *)
Variable GROQ_API_KEY : string.
Variable DOCUMENTS_PATH : string.
Variable directory_loader : string -> string -> result (list Document).

(** [_ensure_dirs()]: the outcome, and the directories [mkdir] was called
    on ([mkdir_index] is [Path.mkdir(parents=True, exist_ok=True)]). *)
Definition _ensure_dirs : result unit * list string :=
  match mkdir_index env (FAISS_INDEX_PATH cfg) with
  | Raise e => (Raise e, [FAISS_INDEX_PATH cfg])
  | Ok _ =>
      (mkdir_index env (UPLOAD_DIR cfg), [FAISS_INDEX_PATH cfg; UPLOAD_DIR cfg])
  end.

(** [validate()]; [EnvironmentError] is Python's [OSError]. *)
Definition validate : result unit * list string :=
  if String.eqb GROQ_API_KEY "" then
    (Raise (mk_exn OSError
              ("GROQ_API_KEY is missing. "
               ++ "Copy .env.example to .env and fill in your key.")), [])
  else _ensure_dirs.

(** How the script ends: [sys.exit(code)] or the end of the file (code 0),
    or an exception nothing catches. *)
Inductive script_end :=
| Exit (code : Z)
| Uncaught (e : exn).

(** [except ValueError]: the class itself or its subclass
    [JSONDecodeError]. *)
Definition is_value_error (e : exn) : bool :=
  isinstance e ValueError || isinstance e JSONDecodeError.

(** The [__main__] block of [scripts/ingest.py]: how it ends, the
    directories created, the calls of the ingestion. *)
Definition ingest_script : script_end * list string * list event :=
  match validate with
  | (Raise exc, dirs) =>
      (if isinstance exc OSError then Exit 1 else Uncaught exc, dirs, [])
  | (Ok _, dirs) =>
      match ingest_directory cfg env DOCUMENTS_PATH directory_loader true with
      | (Ok _, tr) => (Exit 0, dirs, tr)
      | (Raise exc, tr) =>
          (if is_value_error exc then Exit 1 else Uncaught exc, dirs, tr)
      end
  end.

End Script.

(** ** Further vocabulary *)

(** The calls that write the persisted index. *)
Definition persists (ev : event) : bool :=
  match ev with
  | EvMkdirIndex | EvSaveLocal => true
  | _ => false
  end.

Definition is_rebuild (op : operation) : bool :=
  match op with
  | OpRebuild _ _ => true
  | _ => false
  end.

(** The status code of a response of the JSON API. *)
Definition response_status (r : Routes.HTTPResponse) : Z :=
  match r with
  | Routes.JSONResponse _ status => status
  | Routes.TemplateResponse _ _ => 200
  end.

(** The character ['/'] does not occur in [s]. *)
Fixpoint slash_free (s : string) : bool :=
  match s with
  | EmptyString => true
  | String c rest => negb (Ascii.eqb c "/"%char) && slash_free rest
  end.

(** The extension [upload_file] tests and the path it writes to. *)
Definition upload_ext `{PyRuntime} (file_filename : string) : string :=
  str_lower (path_suffix (path_name file_filename)).

Definition upload_path (cfg : Config) (file_filename : string) : string :=
  path_join (UPLOAD_DIR cfg) (path_name file_filename).

(** The response of [upload_file] when the file cannot be written. *)
Definition RESPONSE_SAVE_FAILED : Routes.HTTPResponse :=
  Routes.JSONResponse
    [("ok", JBool false);
     ("message", JString "Impossible de sauvegarder le fichier.")] 500.

(** The loader [_load_file] picks for a path, if any. *)
Definition loader_for `{PyRuntime} (env : IngestEnv) (file_path : string) :
    option (string -> result (list Document)) :=
  let ext := str_lower (path_suffix file_path) in
  if String.eqb ext ".txt" then Some (text_loader env)
  else if String.eqb ext ".pdf" then Some (pdf_loader env)
  else None.

(** What [ingest_file] and [ingest_directory] do with the documents they
    have loaded (the same lines of code in both). *)
Definition index_documents (cfg : Config) (env : IngestEnv)
    (docs : list Document) (save_to_disk : bool) : IO FAISS :=
  (chunks <- _split_documents env docs ;;
   embeddings <- _get_embeddings cfg env ;;
   vectorstore <- call EvFromDocuments (from_documents env chunks embeddings) ;;
   (if save_to_disk then
      call EvMkdirIndex (mkdir_index env (FAISS_INDEX_PATH cfg)) ;;
      call EvSaveLocal (save_local env vectorstore (FAISS_INDEX_PATH cfg))
    else io_ret tt) ;;
   io_ret vectorstore)%io.

(** A Groq endpoint that never answers in time. *)
Definition world_timeout : World := {|
  groq_post := fun _ => PostTimeout false "Read timed out.";
  ingest_env := env_ok
|}.

(** As [env_ok], but the upload directory cannot be written and the index
    cannot be saved. *)
Definition env_disk_full : IngestEnv := {|
  text_loader := fun _ => Ok [doc_paris];
  pdf_loader := fun _ => Ok [doc_paris];
  split_documents := fun docs => Ok docs;
  get_embeddings := fun name => Ok name;
  from_documents := fun _ _ => Ok index_paris;
  mkdir_index := fun _ => Ok tt;
  save_local := fun _ _ => Raise (mk_exn OSError "No space left on device");
  index_dir_populated := fun _ => Ok false;
  load_local := fun _ _ => Raise (mk_exn RuntimeError "no index");
  save_upload := fun _ _ => Raise (mk_exn PermissionError "Permission denied")
|}.

Definition world_disk_full : World := {|
  groq_post := groq_post world_ok;
  ingest_env := env_disk_full
|}.

(** A documents directory holding one text file and no PDF. *)
Definition directory_one_text (path glob : string) : result (list Document) :=
  if String.eqb glob "**/*.txt" then Ok [doc_paris] else Ok [].

(** An empty documents directory. *)
Definition directory_empty (path glob : string) : result (list Document) :=
  Ok [].

(** The default configuration with [RAG_MIN_SCORE] set to 0.7. *)
Definition floor_07_config : Config := {|
  GROQ_MODEL := GROQ_MODEL default_config;
  GROQ_TIMEOUT := GROQ_TIMEOUT default_config;
  EMBEDDING_MODEL := EMBEDDING_MODEL default_config;
  FAISS_INDEX_PATH := FAISS_INDEX_PATH default_config;
  UPLOAD_DIR := UPLOAD_DIR default_config;
  RAG_TOP_K := RAG_TOP_K default_config;
  RAG_MIN_SCORE := 0x1.6666666666666p-1%float;   (* float("0.7") *)
  MAX_HISTORY_LENGTH := MAX_HISTORY_LENGTH default_config
|}.

(** Four earlier turns. *)
Definition four_turns : list Turn :=
  [("q1", JString "a1"); ("q2", JString "a2"); ("q3", JString "a3");
   ("q4", JString "a4")].

(** * Properties *)

(** ** Strings *)

Lemma length_append (a b : string) :
  String.length (a ++ b) = String.length a + String.length b.
Proof. induction a as [|c a IH]; simpl; [reflexivity | now rewrite IH]. Qed.

Lemma substring_all (s : string) : substring 0 (String.length s) s = s.
Proof. induction s as [|c s IH]; simpl; [reflexivity | now rewrite IH]. Qed.

Lemma drop_append (t s : string) : drop (String.length t) (t ++ s) = s.
Proof.
  unfold drop. rewrite length_append.
  replace (String.length t + String.length s - String.length t)
    with (String.length s) by lia.
  induction t as [|c t IH]; simpl; [apply substring_all | exact IH].
Qed.

Lemma contains_middle (a sub b : string) : contains sub (a ++ sub ++ b).
Proof. now exists a, b. Qed.

(** No whitespace character is the beginning of another one, so the scan
    finds, at the head of [t ++ s], the very character [t]. *)
Lemma find_whitespace (t s : string) :
  In t whitespace ->
  find (fun t' => prefix t' (t ++ s)) whitespace = Some t.
Proof.
  intros Hin. cbv [whitespace map bytes] in Hin. simpl in Hin.
  repeat (destruct Hin as [<- | Hin]; [cbn; now destruct s |]).
  contradiction.
Qed.

Lemma whitespace_nonempty (t : string) :
  In t whitespace -> 1 <= String.length t.
Proof.
  intros Hin. cbv [whitespace map bytes] in Hin. simpl in Hin.
  repeat (destruct Hin as [<- | Hin]; [simpl; lia |]).
  contradiction.
Qed.

Lemma strip_prefix_all_whitespace (s : string) :
  all_whitespace s ->
  forall fuel, String.length s <= fuel -> strip_prefix whitespace fuel s = "".
Proof.
  induction 1 as [|t s Hin Hs IH]; intros fuel Hfuel.
  - destruct fuel; reflexivity.
  - pose proof (whitespace_nonempty t Hin) as Ht.
    rewrite length_append in Hfuel.
    destruct fuel as [|fuel]; [lia |].
    cbn [strip_prefix]. rewrite (find_whitespace t s Hin), drop_append.
    apply IH. lia.
Qed.

Lemma strip_all_whitespace (s : string) : all_whitespace s -> strip s = "".
Proof.
  intros Hs. unfold strip, lstrip.
  rewrite (strip_prefix_all_whitespace s Hs) by lia.
  reflexivity.
Qed.

(** ** Retrieval *)

Section RetrievalProperties.
Context `{PyRuntime}.
Variable cfg : Config.
Variable w : World.

Lemma keep_scored_nil (pairs : list (Document * float)) :
  keep_scored cfg pairs = [] <-> all_below_floor cfg pairs.
Proof.
  unfold keep_scored, all_below_floor. induction pairs as [|p pairs IH]; simpl.
  - split; [intros _ q [] | reflexivity].
  - destruct (score_ge (snd p) (RAG_MIN_SCORE cfg)) eqn:E; simpl.
    + split; [discriminate |]. intros Hall.
      specialize (Hall p (or_introl eq_refl)). congruence.
    + rewrite IH. split.
      * intros Hall q [<- | Hq]; [exact E | now apply Hall].
      * intros Hall q Hq. apply Hall. now right.
Qed.

(** The whole of [_retrieve] on a loaded index, by cases on the scored
    search. *)
Lemma retrieve_unfold (vs : FAISS) (history : list Turn) (question : string) (k : Z) :
  _retrieve cfg question k (chatbot_with vs history) =
  match similarity_search_with_score vs question k with
  | Ok pairs =>
      match keep_scored cfg pairs with
      | _ :: _ =>
          (Ok (keep_scored cfg pairs), chatbot_with vs history,
           [EvScoredSearch question k])
      | [] =>
          (similarity_search vs question k, chatbot_with vs history,
           [EvScoredSearch question k; EvPlainSearch question k])
      end
  | Raise _ =>
      (similarity_search vs question k, chatbot_with vs history,
       [EvScoredSearch question k; EvPlainSearch question k])
  end.
Proof.
  unfold _retrieve, try_except, bind, on_vectorstore, get_self, lift, call, ret.
  simpl.
  destruct (similarity_search_with_score vs question k) as [pairs|e]; simpl.
  - destruct (keep_scored cfg pairs) as [|d ds]; simpl;
      [destruct (similarity_search vs question k) |]; reflexivity.
  - destruct (similarity_search vs question k); reflexivity.
Qed.

Lemma fallback_condition_dec (vs : FAISS) (question : string) (k : Z) :
  fallback_condition cfg vs question k <->
  match similarity_search_with_score vs question k with
  | Ok pairs => keep_scored cfg pairs = []
  | Raise _ => True
  end.
Proof.
  unfold fallback_condition.
  destruct (similarity_search_with_score vs question k) as [pairs|e].
  - rewrite keep_scored_nil. split.
    + intros [[e He] | [ps [Hps Hall]]]; [discriminate |].
      injection Hps as <-. exact Hall.
    + intros Hall. right. now exists pairs.
  - split; [trivial | intros _; left; now exists e].
Qed.

Lemma chatbot_with_eta (self : RAGChatbot) (vs : FAISS) :
  _vectorstore self = Some vs -> self = chatbot_with vs (_history self).
Proof. destruct self as [v h]; simpl; intros ->; reflexivity. Qed.

Lemma is_ready_inv (self : RAGChatbot) :
  is_ready self = true -> exists vs, _vectorstore self = Some vs.
Proof.
  unfold is_ready. destruct (_vectorstore self) as [vs|]; [|discriminate].
  intros _. now exists vs.
Qed.

(** [_retrieve] only calls the index: it leaves the instance as it is and
    posts nothing to the LLM. *)
Lemma retrieve_frame (self self' : RAGChatbot) (question : string) (k : Z)
    (r : result (list Document)) (tr : list event) :
  is_ready self = true ->
  _retrieve cfg question k self = (r, self', tr) ->
  self' = self /\ forall prompt, ~ In (EvGroqPost prompt) tr.
Proof.
  intros Hready Hret.
  destruct (is_ready_inv self Hready) as [vs Hvs].
  rewrite (chatbot_with_eta self vs Hvs), retrieve_unfold in Hret.
  rewrite <- (chatbot_with_eta self vs Hvs) in Hret.
  assert (Hcases : (self', tr) = (self, [EvScoredSearch question k])
                   \/ (self', tr) = (self, [EvScoredSearch question k;
                                            EvPlainSearch question k])).
  { destruct (similarity_search_with_score vs question k) as [pairs|e];
      [destruct (keep_scored cfg pairs) |]; inversion Hret; auto. }
  destruct Hcases as [E | E]; inversion E; subst; split; try reflexivity;
    intros prompt Hin; simpl in Hin;
    repeat (destruct Hin as [Hin | Hin]; [discriminate |]); exact Hin.
Qed.

End RetrievalProperties.

Section ChatbotProperties.
Context `{PyRuntime}.
Variable cfg : Config.
Variable w : World.

Lemma keep_scored_subseq (pairs : list (Document * float)) :
  subseq (keep_scored cfg pairs) (map fst pairs).
Proof.
  unfold keep_scored. induction pairs as [|p pairs IH]; simpl.
  - constructor.
  - destruct (score_ge (snd p) (RAG_MIN_SCORE cfg)); simpl;
      now constructor.
Qed.

Lemma keep_scored_kept_in_order (pairs : list (Document * float)) :
  kept_in_order cfg pairs (keep_scored cfg pairs).
Proof.
  unfold keep_scored. induction pairs as [|[doc score] pairs IH]; simpl.
  - constructor.
  - destruct (score_ge score (RAG_MIN_SCORE cfg)) eqn:E; simpl;
      now constructor.
Qed.

(** The scores decide the result: two lists kept from the same scored
    results are equal. *)
Lemma kept_in_order_unique (pairs : list (Document * float))
    (docs1 docs2 : list Document) :
  kept_in_order cfg pairs docs1 -> kept_in_order cfg pairs docs2 -> docs1 = docs2.
Proof.
  intros H1. revert docs2.
  induction H1 as [| doc score pairs docs Hs _ IH | doc score pairs docs Hs _ IH];
    intros docs2 H2; inversion H2; subst; try congruence.
  - f_equal. now apply IH.
  - now apply IH.
Qed.

(** C3. On a loaded index, [_retrieve] calls the unfiltered search exactly
    when the scored search raises or no scored result reaches
    [RAG_MIN_SCORE]; its outcome is then the outcome of that unfiltered
    search (at most [k] chunks, possibly none, for an engine that honours
    [k]). Otherwise it returns, without the unfiltered search, the document
    of every scored result whose score is at least [RAG_MIN_SCORE] and of no
    other, in the order the engine gave them. The instance is never
    changed. *)
Theorem retrieve_fallback_exactly (vs : FAISS) (history : list Turn)
    (question : string) (k : Z) :
  let self := chatbot_with vs history in
  let '(outcome, self', trace) := _retrieve cfg question k self in
  self' = self
  /\ (In (EvPlainSearch question k) trace <-> fallback_condition cfg vs question k)
  /\ (fallback_condition cfg vs question k ->
        outcome = similarity_search vs question k
        /\ trace = [EvScoredSearch question k; EvPlainSearch question k]
        /\ (at_most_k vs ->
            forall docs, outcome = Ok docs ->
                         (Z.of_nat (List.length docs) <= k)%Z))
  /\ (~ fallback_condition cfg vs question k ->
        exists pairs docs,
          similarity_search_with_score vs question k = Ok pairs
          /\ outcome = Ok docs
          /\ docs <> []
          /\ kept_in_order cfg pairs docs
          /\ subseq docs (map fst pairs)
          /\ trace = [EvScoredSearch question k]).
Proof.
  intros self. subst self. rewrite retrieve_unfold.
  pose proof (fallback_condition_dec cfg vs question k) as Hdec.
  destruct (similarity_search_with_score vs question k) as [pairs|e].
  - destruct (keep_scored cfg pairs) as [|d ds] eqn:Ekeep.
    + assert (Hfb : fallback_condition cfg vs question k) by now apply Hdec.
      repeat split; auto.
      * simpl; auto.
      * intros Hk docs Hdocs. now apply (Hk question k).
      * intros Hno. contradiction.
    + assert (Hno : ~ fallback_condition cfg vs question k).
      { intros Hfb. apply Hdec in Hfb. discriminate. }
      repeat split.
      * intros [Hin | []]. discriminate.
      * intros Hfb. contradiction.
      * contradiction.
      * contradiction.
      * contradiction.
      * intros _. exists pairs, (d :: ds).
        split; [reflexivity |]. split; [reflexivity |].
        split; [discriminate |]. rewrite <- Ekeep.
        split; [apply keep_scored_kept_in_order |].
        split; [apply keep_scored_subseq | reflexivity].
  - assert (Hfb : fallback_condition cfg vs question k) by now apply Hdec.
    repeat split; auto.
    + simpl; auto.
    + intros Hk docs Hdocs. now apply (Hk question k).
    + intros Hno. contradiction.
Qed.

(** C1. A chatbot with no index answers every question with the fixed
    "import a document" message, and one whose retrieval comes back empty
    answers with the fixed "nothing relevant found" message; in both cases
    the instance (history included) is unchanged and nothing is posted to
    the LLM. *)
Theorem ask_without_context (self : RAGChatbot) (question : string) (k : Z) :
  (is_ready self = false ->
     ask cfg w question k self = (Ok (JString MSG_NOT_READY), self, []))
  /\ (forall self' trace,
        is_ready self = true ->
        _retrieve cfg question k self = (Ok [], self', trace) ->
        ask cfg w question k self = (Ok (JString MSG_NOTHING_FOUND), self, trace)
        /\ forall prompt, ~ In (EvGroqPost prompt) trace).
Proof.
  split.
  - intros Hready. unfold ask, bind, get_self, ret. simpl.
    rewrite Hready. reflexivity.
  - intros self' trace Hready Hret.
    destruct (retrieve_frame cfg self self' question k _ trace Hready Hret)
      as [-> Hquiet].
    split; [| exact Hquiet].
    unfold ask, bind, get_self, ret. simpl.
    rewrite Hready. simpl. rewrite Hret. simpl.
    now rewrite app_nil_r.
Qed.

(** C10. On a loaded index, when the scored search raises or keeps nothing
    and the unfiltered search then raises, that exception leaves [ask]
    uncaught: no fallback message is produced, the history is untouched and
    the LLM is not called. *)
Theorem ask_propagates_search_failure (vs : FAISS) (history : list Turn)
    (question : string) (k : Z) (e : exn) :
  fallback_condition cfg vs question k ->
  similarity_search vs question k = Raise e ->
  ask cfg w question k (chatbot_with vs history) =
    (Raise e, chatbot_with vs history,
     [EvScoredSearch question k; EvPlainSearch question k]).
Proof.
  intros Hfb Hplain.
  apply (fallback_condition_dec cfg) in Hfb.
  unfold ask, bind, get_self, ret. simpl.
  rewrite retrieve_unfold, Hplain.
  destruct (similarity_search_with_score vs question k) as [pairs|e'].
  - rewrite Hfb. reflexivity.
  - reflexivity.
Qed.

End ChatbotProperties.

(** ** Conversation history *)

Section HistoryProperties.
Context `{PyRuntime}.
Variable cfg : Config.
Variable w : World.

Lemma add_to_history_unfold (self : RAGChatbot) (question : string) (answer : json) :
  _add_to_history cfg question answer self =
  (Ok tt,
   {| _vectorstore := _vectorstore self;
      _history := appended cfg (_history self) (question, answer) |},
   []).
Proof.
  unfold _add_to_history, appended, bind, get_self, set_history, ret.
  simpl.
  match goal with |- context [if ?over then _ else _] => destruct over end;
    reflexivity.
Qed.

Lemma slice_from_last {A : Type} (m : Z) (l : list A) :
  (1 <= m)%Z -> (m < Z.of_nat (List.length l))%Z ->
  slice_from (- m) l = skipn (List.length l - Z.to_nat m) l.
Proof.
  intros Hm Hlen. unfold slice_from.
  replace (- m <? 0)%Z with true by (symmetry; apply Z.ltb_lt; lia).
  f_equal. lia.
Qed.

(** With a maximum of at least one turn, the history after an append is the
    tail of "old history, then the new turn" of length [min (n + 1) max]. *)
Lemma appended_fifo (history : list Turn) (t : Turn) :
  (1 <= MAX_HISTORY_LENGTH cfg)%Z ->
  exists evicted,
    (history ++ [t])%list = (evicted ++ appended cfg history t)%list
    /\ List.length (appended cfg history t)
       = Nat.min (List.length history + 1) (Z.to_nat (MAX_HISTORY_LENGTH cfg))
    /\ last (appended cfg history t) t = t.
Proof.
  intros Hmax. unfold appended.
  assert (Hlen : List.length (history ++ [t])%list = List.length history + 1)
    by (rewrite length_app; reflexivity).
  destruct (MAX_HISTORY_LENGTH cfg <? Z.of_nat (List.length (history ++ [t])%list))%Z
    eqn:Hover.
  - apply Z.ltb_lt in Hover.
    rewrite (slice_from_last _ _ Hmax Hover).
    set (n := List.length (history ++ [t])%list - Z.to_nat (MAX_HISTORY_LENGTH cfg)).
    exists (firstn n (history ++ [t])%list).
    split; [symmetry; apply firstn_skipn |].
    split; [rewrite length_skipn; lia |].
    assert (Hn : n <= List.length history) by lia.
    rewrite (skipn_app n), (proj2 (Nat.sub_0_le n (List.length history)) Hn).
    simpl. apply last_last.
  - apply Z.ltb_ge in Hover.
    exists []. split; [reflexivity |].
    split; [lia | apply last_last].
Qed.

Lemma appended_bounded (history : list Turn) (t : Turn) :
  (1 <= MAX_HISTORY_LENGTH cfg)%Z ->
  (Z.of_nat (List.length (appended cfg history t)) <= MAX_HISTORY_LENGTH cfg)%Z.
Proof.
  intros Hmax. destruct (appended_fifo history t Hmax) as [_ [_ [Hlen _]]].
  lia.
Qed.

(** With a maximum of zero, [history[-0:]] is the whole list: nothing is
    ever evicted. *)
Lemma appended_at_zero (history : list Turn) (t : Turn) :
  MAX_HISTORY_LENGTH cfg = 0%Z -> appended cfg history t = (history ++ [t])%list.
Proof.
  intros Hzero. unfold appended. rewrite Hzero.
  destruct (0 <? Z.of_nat (List.length (history ++ [t])%list))%Z; [| reflexivity].
  unfold slice_from. simpl. rewrite Z.min_l by lia. reflexivity.
Qed.

(** [ask] either leaves the instance alone or appends one turn. *)
Lemma ask_state (self : RAGChatbot) (question : string) (k : Z) :
  state_after (ask cfg w question k) self = self
  \/ exists answer,
       state_after (ask cfg w question k) self =
       {| _vectorstore := _vectorstore self;
          _history := appended cfg (_history self) (question, answer) |}.
Proof.
  unfold state_after, ask, bind, get_self, ret. simpl.
  destruct (is_ready self) eqn:Hready; simpl; [| now left].
  destruct (_retrieve cfg question k self) as [[r self'] tr] eqn:Hret.
  destruct (retrieve_frame cfg self self' question k r tr Hready Hret) as [-> _].
  destruct r as [[|d ds]|e]; simpl; [now left | | now left].
  unfold lift. simpl.
  destruct (_call_groq w _) as [[answer|e] tr']; simpl; [| now left].
  rewrite add_to_history_unfold. simpl. right. now exists answer.
Qed.

Lemma perform_history_bounded (op : operation) (self : RAGChatbot) :
  (1 <= MAX_HISTORY_LENGTH cfg)%Z ->
  (Z.of_nat (List.length (_history self)) <= MAX_HISTORY_LENGTH cfg)%Z ->
  (Z.of_nat (List.length (_history (state_after (perform cfg w op) self)))
   <= MAX_HISTORY_LENGTH cfg)%Z.
Proof.
  intros Hmax Hself. destruct op as [question k | | file_path save]; simpl.
  - assert (E : state_after (bind (ask cfg w question k) (fun _ => ret tt)) self
                = state_after (ask cfg w question k) self).
    { unfold state_after, bind, ret.
      destruct (ask cfg w question k self) as [[[a|e] s] tr]; reflexivity. }
    rewrite E.
    destruct (ask_state self question k) as [-> | [answer ->]];
      [exact Hself | simpl; now apply appended_bounded].
  - unfold state_after, clear_history, set_history. simpl. lia.
  - unfold state_after, rebuild_from_file, bind, lift, set_vectorstore. simpl.
    destruct (ingest_file cfg (ingest_env w) file_path save) as [[vs|e] tr];
      simpl; exact Hself.
Qed.

(** With a maximum of at least one turn, no sequence of requests takes the
    history past the maximum. *)
Lemma run_history_bounded (ops : list operation) (self : RAGChatbot) :
  (1 <= MAX_HISTORY_LENGTH cfg)%Z ->
  (Z.of_nat (List.length (_history self)) <= MAX_HISTORY_LENGTH cfg)%Z ->
  (Z.of_nat (List.length (_history (run cfg w ops self))) <= MAX_HISTORY_LENGTH cfg)%Z.
Proof.
  intros Hmax. revert self.
  induction ops as [|op ops IH]; intros self Hself; simpl.
  - exact Hself.
  - apply IH. now apply perform_history_bounded.
Qed.

End HistoryProperties.

(** ** Rebuilding the index, and the routes *)

Section RouteProperties.
Context `{PyRuntime}.
Variable cfg : Config.
Variable w : World.

Lemma rebuild_unfold (self : RAGChatbot) (file_path : string) (save_to_disk : bool) :
  rebuild_from_file cfg w file_path save_to_disk self =
  match ingest_file cfg (ingest_env w) file_path save_to_disk with
  | (Ok vs, tr) =>
      (Ok tt, {| _vectorstore := Some vs; _history := _history self |}, tr)
  | (Raise e, tr) => (Raise e, self, tr)
  end.
Proof.
  unfold rebuild_from_file, bind, lift, set_vectorstore.
  destruct (ingest_file cfg (ingest_env w) file_path save_to_disk) as [[vs|e] tr];
    simpl; [now rewrite app_nil_r | reflexivity].
Qed.

(** C4. If ingestion of the file raises, [rebuild_from_file] raises the same
    exception and leaves the instance (index, readiness and history) exactly
    as it was; if ingestion returns an index, that index replaces the old one
    whatever it was, and the instance is ready. Ingestion does raise for an
    extension other than .txt and .pdf, for a file from which no document is
    extracted, and when building the index fails. *)
Theorem rebuild_all_or_nothing (self : RAGChatbot) (file_path : string)
    (save_to_disk : bool) :
  let env := ingest_env w in
  let ext := str_lower (path_suffix file_path) in
  (forall e tr,
      ingest_file cfg env file_path save_to_disk = (Raise e, tr) ->
      rebuild_from_file cfg w file_path save_to_disk self = (Raise e, self, tr))
  /\ (forall vs tr,
        ingest_file cfg env file_path save_to_disk = (Ok vs, tr) ->
        let self' := {| _vectorstore := Some vs; _history := _history self |} in
        rebuild_from_file cfg w file_path save_to_disk self = (Ok tt, self', tr)
        /\ is_ready self' = true)
  /\ (ext <> ".txt" -> ext <> ".pdf" ->
        ingest_file cfg env file_path save_to_disk =
        (Raise (mk_exn ValueError ("Unsupported file extension: " ++ str_repr ext)),
         []))
  /\ (forall tr,
        _load_file env file_path = (Ok [], tr) ->
        ingest_file cfg env file_path save_to_disk =
        (Raise (mk_exn ValueError
                  ("No content could be extracted from " ++ file_path)), tr))
  /\ (forall doc docs tr chunks embeddings e,
        _load_file env file_path = (Ok (doc :: docs), tr) ->
        split_documents env (doc :: docs) = Ok chunks ->
        get_embeddings env (EMBEDDING_MODEL cfg) = Ok embeddings ->
        from_documents env chunks embeddings = Raise e ->
        ingest_file cfg env file_path save_to_disk =
        (Raise e, (tr ++ [EvSplit; EvEmbeddings; EvFromDocuments])%list)).
Proof.
  intros env ext. split; [| split; [| split; [| split]]].
  - intros e tr Hing. rewrite rebuild_unfold. fold env. now rewrite Hing.
  - intros vs tr Hing self'. split; [| reflexivity].
    rewrite rebuild_unfold. fold env. now rewrite Hing.
  - intros Htxt Hpdf. unfold ingest_file, _load_file. fold ext.
    destruct (String.eqb_spec ext ".txt") as [E|_]; [contradiction |].
    destruct (String.eqb_spec ext ".pdf") as [E|_]; [contradiction |].
    reflexivity.
  - intros tr Hload. unfold ingest_file. rewrite Hload. simpl.
    now rewrite app_nil_r.
  - intros doc docs tr chunks embeddings e Hload Hsplit Hemb Hbuild.
    unfold ingest_file. rewrite Hload.
    unfold io_bind, _split_documents, _get_embeddings, call.
    rewrite Hsplit, Hemb, Hbuild. reflexivity.
Qed.

(** C7. An upload whose file name, reduced to its last component, has a
    lower-cased extension outside [ALLOWED_EXTENSIONS] is answered with
    status 400 and a message that contains that extension; nothing has been
    written or ingested (the trace is empty) and the instance is unchanged. *)
Theorem upload_rejects_unsupported_extension (self : RAGChatbot)
    (file_filename file_content : string) (save_index : bool) :
  let ext := str_lower (path_suffix (path_name file_filename)) in
  str_in ext ALLOWED_EXTENSIONS = false ->
  exists message,
    Routes.upload_file cfg w file_filename file_content save_index self =
    (Ok (Routes.JSONResponse
           [("ok", JBool false); ("message", JString message)] 400),
     self, [])
    /\ contains ext message.
Proof.
  intros ext Hext. exists (Routes.MSG_BAD_EXTENSION ext). split.
  - unfold Routes.upload_file. fold ext. rewrite Hext. reflexivity.
  - unfold Routes.MSG_BAD_EXTENSION. apply contains_middle.
Qed.

(** C9. A question made of whitespace only is answered by the route with the
    fixed warning, as JSON or as the rendered page according to the Accept
    header; the chatbot is not consulted: no search, no LLM call (the trace
    is empty) and the instance, history included, is unchanged. *)
Theorem ask_route_blank_question (self : RAGChatbot) (question accept : string) :
  all_whitespace question ->
  Routes.ask cfg w question accept self =
  (Ok (if Routes.str_contains "application/json" accept
       then Routes.JSONResponse
              [("answer", JString Routes.MSG_EMPTY_QUESTION);
               ("question", JString "")] 200
       else Routes.TemplateResponse "index.html"
              {| Routes.ctx_answer := Some (JString Routes.MSG_EMPTY_QUESTION);
                 Routes.ctx_question := Some "";
                 Routes.ctx_upload_message := None;
                 Routes.ctx_is_ready := is_ready self |}),
   self, []).
Proof.
  intros Hblank. unfold Routes.ask.
  rewrite (strip_all_whitespace question Hblank).
  unfold bind, ret, get_self. simpl.
  destruct (Routes.str_contains "application/json" accept); reflexivity.
Qed.

End RouteProperties.

(** ** The LLM client *)

Lemma getitem_object (fields : list (string * json)) (key : string) :
  getitem (JObject fields) key =
  match lookup key fields with
  | Some v => Ok v
  | None => Raise (mk_exn KeyError ("'" ++ key ++ "'"))
  end.
Proof.
  unfold getitem, lookup.
  destruct (find (fun kv => String.eqb (fst kv) key) fields); reflexivity.
Qed.

Ltac unexpected := eexists; repeat split; reflexivity.

Lemma read_completion_cases (r : Response) :
  match json_body r with
  | Some body =>
      match first_completion body with
      | Some content => read_completion r = (Ok content, [])
      | None => unexpected_failure (read_completion r)
      end
  | None => unexpected_failure (read_completion r)
  end.
Proof.
  unfold read_completion, response_json, unexpected_failure.
  destruct (json_body r) as [body|]; [| unexpected].
  destruct body as [| b | n | f | s | items | top]; try unexpected.
  unfold first_completion. cbn [io_of_result io_bind]. rewrite getitem_object.
  destruct (lookup "choices" top) as [choices|]; [| unexpected].
  destruct choices as [| b | n | f | s | items | fields]; try unexpected.
  - destruct s as [|c s]; unexpected.
  - destruct items as [|choice items]; [unexpected |].
    destruct choice as [| b | n | f | s | items' | choice]; try unexpected.
    cbn [io_of_result io_bind getitem0 app]. rewrite getitem_object.
    destruct (lookup "message" choice) as [message|]; [| unexpected].
    destruct message as [| b | n | f | s | items' | message]; try unexpected.
    cbn [io_of_result io_bind app]. rewrite getitem_object.
    destruct (lookup "content" message) as [content|];
      [reflexivity | unexpected].
Qed.

Lemma call_groq_unfold (w : World) (prompt : string) :
  _call_groq w prompt =
  io_try
    (response <- requests_post w prompt ;;
     io_of_result (raise_for_status response) ;;
     read_completion response)%io
    groq_handler.
Proof. reflexivity. Qed.

(** C5, amended. [_call_groq] makes one request and never raises. A timeout
    gives the fixed "took too long" message; a response with a 4xx or 5xx
    status gives the "API error (status)" message; any other transport
    failure gives the generic message; and a response with any other status
    gives the message text of its first completion as it is, or the generic
    message when the body does not decode to that shape. *)
Theorem call_groq_never_raises (w : World) (prompt : string) :
  _call_groq w prompt = (Ok (groq_answer (groq_post w prompt)), [EvGroqPost prompt]).
Proof.
  rewrite call_groq_unfold. unfold requests_post, call, groq_answer.
  destruct (groq_post w prompt) as [connecting msg | msg | r].
  - destruct connecting; reflexivity.
  - reflexivity.
  - cbn [io_bind io_try]. unfold raise_for_status.
    destruct ((400 <=? status_code r)%Z && (status_code r <? 600)%Z).
    + reflexivity.
    + cbn [io_of_result io_bind app].
      pose proof (read_completion_cases r) as Hread.
      destruct (json_body r) as [body|].
      * destruct (first_completion body) as [content|].
        -- rewrite Hread. reflexivity.
        -- destruct Hread as [e [-> [Ht Hh]]]. cbn [io_try app].
           unfold groq_handler. rewrite Ht, Hh. reflexivity.
      * destruct Hread as [e [-> [Ht Hh]]]. cbn [io_try app].
        unfold groq_handler. rewrite Ht, Hh. reflexivity.
Qed.

(** ** The prompt *)

Section PromptProperties.
Context `{PyRuntime}.

Lemma passages_length (start : nat) (docs : list Document) :
  List.length (passages start docs) = List.length docs.
Proof.
  revert start. induction docs as [|d docs IH]; intros start; simpl;
    [reflexivity | now rewrite IH].
Qed.

Lemma passages_nth (docs : list Document) (start i : nat) (doc : Document) :
  nth_error docs i = Some doc ->
  nth_error (passages start docs) i = Some (passage (start + i) doc).
Proof.
  revert start i. induction docs as [|d docs IH]; intros start i Hnth.
  - destruct i; discriminate.
  - destruct i as [|i]; simpl in *.
    + injection Hnth as ->. now rewrite Nat.add_0_r.
    + rewrite (IH (S start) i Hnth). do 2 f_equal. lia.
Qed.

Lemma history_lines_length (start : nat) (turns : list Turn) :
  List.length (history_lines start turns) = List.length turns.
Proof.
  revert start. induction turns as [|t turns IH]; intros start; simpl;
    [reflexivity | now rewrite IH].
Qed.

Lemma history_lines_nth (turns : list Turn) (start i : nat) (t : Turn) :
  nth_error turns i = Some t ->
  nth_error (history_lines start turns) i = Some (history_line (start + i) t).
Proof.
  revert start i. induction turns as [|t0 turns IH]; intros start i Hnth.
  - destruct i; discriminate.
  - destruct i as [|i]; simpl in *.
    + injection Hnth as ->. now rewrite Nat.add_0_r.
    + rewrite (IH (S start) i Hnth). do 2 f_equal. lia.
Qed.

Lemma slice_last_three {A : Type} (l : list A) :
  slice_from (-3) l = skipn (List.length l - 3) l.
Proof. unfold slice_from. simpl. f_equal. lia. Qed.

(** C6, amended. The prompt is the fixed instruction text, then the
    recent-history block, then the context block, then the new question.
    The context block holds one passage per retrieved chunk, numbered from 1
    in retrieval order and labelled with the base name of its source when
    the metadata has a non-empty one. The history block is empty for an
    empty history; otherwise it renders the last three turns at most, oldest
    first, as lines Q1/A1, Q2/A2, Q3/A3. *)
Theorem build_prompt_layout (question : string) (context_docs : list Document)
    (history : list Turn) :
  let recent := skipn (List.length history - 3) history in
  _build_prompt question context_docs history =
    INSTRUCTIONS
    ++ history_block history
    ++ ("CONTEXTE DOCUMENTAIRE:" ++ NL
        ++ join (NL ++ NL) (passages 1 context_docs) ++ NL ++ NL)
    ++ ("QUESTION: " ++ question ++ NL ++ NL
        ++ "RÉPONSE (basée uniquement sur le contexte):")
  /\ List.length (passages 1 context_docs) = List.length context_docs
  /\ (forall i doc,
        nth_error context_docs i = Some doc ->
        nth_error (passages 1 context_docs) i =
        Some ("--- Extrait " ++ str_of_nat (i + 1) ++ source_label doc ++ " ---"
              ++ NL ++ page_content doc)
        /\ source_label doc =
           match source doc with
           | Some s => if String.eqb s "" then ""
                       else " [Source: " ++ basename s ++ "]"
           | None => ""
           end)
  /\ (history = [] -> history_block history = "")
  /\ (history <> [] ->
        history_block history =
          "HISTORIQUE RÉCENT:" ++ NL
          ++ join (NL ++ NL) (history_lines 1 recent) ++ NL ++ NL
        /\ List.length (history_lines 1 recent) = Nat.min 3 (List.length history)
        /\ forall i q a,
             nth_error recent i = Some (q, a) ->
             nth_error (history_lines 1 recent) i =
             Some ("Q" ++ str_of_nat (i + 1) ++ ": " ++ q ++ NL
                   ++ "A" ++ str_of_nat (i + 1) ++ ": " ++ py_format a)).
Proof.
  intros recent. split; [reflexivity |].
  split; [apply passages_length |].
  split.
  { intros i doc Hnth. split; [| reflexivity].
    rewrite (passages_nth context_docs 1 i doc Hnth).
    unfold passage. now rewrite (Nat.add_comm 1 i). }
  split; [now intros -> |].
  intros Hne. split; [| split].
  - destruct history as [|t history]; [contradiction |].
    unfold history_block. now rewrite slice_last_three.
  - rewrite history_lines_length. unfold recent. rewrite length_skipn. lia.
  - intros i q a Hnth.
    rewrite (history_lines_nth recent 1 i (q, a) Hnth).
    unfold history_line. simpl fst. simpl snd. now rewrite (Nat.add_comm 1 i).
Qed.

End PromptProperties.

(** ** Status *)

(** C8, amended. The status route never fails and returns status "ok" with
    the chatbot's [info()]: for an instance without index, the single entry
    status "no_document"; for an instance with an index, status "ready", a
    fragment count that is the size of the docstore when it can be read and
    null otherwise, and an embedding-model entry, which is the configured
    embedding model name when [EMBEDDING_MODEL] has its default value. *)
Theorem status_reports_readiness (cfg : Config) (self : RAGChatbot) :
  Routes.status self =
    (Ok [("status", JString "ok"); ("chatbot", JObject (info self))], self, [])
  /\ match _vectorstore self with
     | None => info self = [("status", JString "no_document")]
     | Some vs =>
         exists model,
           info self =
           [("status", JString "ready");
            ("fragment_count",
             match docstore vs with
             | DocstoreDict size => JInt (Z.of_nat size)
             | _ => JNull
             end);
            ("embedding_model", JString model)]
           /\ (EMBEDDING_MODEL cfg = EMBEDDING_MODEL default_config ->
               model = EMBEDDING_MODEL cfg)
     end.
Proof.
  split; [reflexivity |].
  unfold info. destruct (_vectorstore self) as [vs|]; [| reflexivity].
  exists (EMBEDDING_MODEL default_config). split; [| congruence].
  destruct (docstore vs); reflexivity.
Qed.

(** [info()] does not read the configuration: the model name it reports is
    the default one, also when another [EMBEDDING_MODEL] is configured and
    used by the ingestion. *)
Lemma info_ignores_configured_model (vs : FAISS) (history : list Turn) :
  lookup "embedding_model" (info (chatbot_with vs history))
  = Some (JString (EMBEDDING_MODEL default_config)).
Proof. reflexivity. Qed.

(** * Further properties of the orchestration code *)

(** ** Strings and paths *)

Lemma append_empty_r (s : string) : s ++ "" = s.
Proof. induction s as [|c s IH]; simpl; [reflexivity | now rewrite IH]. Qed.

Lemma append_assoc (a b c : string) : (a ++ b) ++ c = a ++ b ++ c.
Proof. induction a as [|x a IH]; simpl; [reflexivity | now rewrite IH]. Qed.

Lemma contains_refl (s : string) : contains s s.
Proof. exists "", "". simpl. now rewrite append_empty_r. Qed.

Lemma contains_trans (a b c : string) : contains a b -> contains b c -> contains a c.
Proof.
  intros [p1 [q1 ->]] [p2 [q2 ->]]. exists (p2 ++ p1), (q1 ++ q2).
  now rewrite !append_assoc.
Qed.

Lemma contains_append_l (sub a b : string) : contains sub a -> contains sub (a ++ b).
Proof.
  intros [p [q ->]]. exists p, (q ++ b). now rewrite !append_assoc.
Qed.

Lemma contains_append_r (sub a b : string) : contains sub b -> contains sub (a ++ b).
Proof.
  intros [p [q ->]]. exists (a ++ p), q. now rewrite !append_assoc.
Qed.

Lemma slash_free_forallb (s : string) :
  slash_free s = forallb (fun c => negb (Ascii.eqb c "/"%char)) (list_ascii_of_string s).
Proof. induction s as [|c s IH]; simpl; [reflexivity | now rewrite IH]. Qed.

Lemma slash_free_rev (s : string) : slash_free s = true -> slash_free (str_rev s) = true.
Proof.
  rewrite !slash_free_forallb. unfold str_rev.
  rewrite list_ascii_of_string_of_list_ascii, !forallb_forall.
  intros Hs c Hc. apply Hs. now apply in_rev.
Qed.

(** No component of a path holds a ['/']. *)
Lemma split_slash_free (s cur : string) :
  slash_free cur = true ->
  Forall (fun part => slash_free part = true) (split_slash cur s).
Proof.
  revert cur. induction s as [|c s IH]; intros cur Hcur; simpl.
  - constructor; [now apply slash_free_rev | constructor].
  - destruct (Ascii.eqb c "/"%char) eqn:Hc.
    + constructor; [now apply slash_free_rev | now apply IH].
    + apply IH. simpl. now rewrite Hc, Hcur.
Qed.

Lemma last_Forall {A : Type} (P : A -> Prop) (l : list A) (d : A) :
  P d -> Forall P l -> P (last l d).
Proof.
  intros Hd Hl. induction Hl as [|x l Hx Hl IH]; [exact Hd |].
  destruct l as [|y l]; [exact Hx | exact IH].
Qed.

Lemma path_name_slash_free (p : string) : slash_free (path_name p) = true.
Proof.
  unfold path_name, path_parts.
  apply (last_Forall (fun part => slash_free part = true)); [reflexivity |].
  apply Forall_forall. intros part Hin. apply filter_In in Hin as [Hin _].
  revert part Hin. apply Forall_forall. now apply split_slash_free.
Qed.

(** ** Stripping *)

Lemma list_ascii_of_string_app (a b : string) :
  list_ascii_of_string (a ++ b)
  = (list_ascii_of_string a ++ list_ascii_of_string b)%list.
Proof. induction a as [|c a IH]; simpl; [reflexivity | now rewrite IH]. Qed.

Lemma string_of_list_ascii_app (l1 l2 : list ascii) :
  string_of_list_ascii (l1 ++ l2)%list
  = string_of_list_ascii l1 ++ string_of_list_ascii l2.
Proof. induction l1 as [|c l1 IH]; simpl; [reflexivity | now rewrite IH]. Qed.

Lemma str_rev_app (a b : string) : str_rev (a ++ b) = str_rev b ++ str_rev a.
Proof.
  unfold str_rev.
  now rewrite list_ascii_of_string_app, rev_app_distr, string_of_list_ascii_app.
Qed.

Lemma str_rev_involutive (s : string) : str_rev (str_rev s) = s.
Proof.
  unfold str_rev.
  now rewrite list_ascii_of_string_of_list_ascii, rev_involutive,
    string_of_list_ascii_of_string.
Qed.

Lemma length_string_of_list_ascii (l : list ascii) :
  String.length (string_of_list_ascii l) = List.length l.
Proof. induction l as [|c l IH]; simpl; [reflexivity | now rewrite IH]. Qed.

Lemma length_str_rev (s : string) : String.length (str_rev s) = String.length s.
Proof.
  unfold str_rev. rewrite length_string_of_list_ascii, length_rev.
  rewrite <- (string_of_list_ascii_of_string s) at 2.
  now rewrite length_string_of_list_ascii.
Qed.

Lemma drop_cons (n : nat) (c : ascii) (s : string) :
  drop (S n) (String c s) = drop n s.
Proof. reflexivity. Qed.

Lemma prefix_drop (t s : string) :
  prefix t s = true -> s = t ++ drop (String.length t) s.
Proof.
  revert s. induction t as [|a t IH]; intros s Hpre.
  - simpl. unfold drop. rewrite Nat.sub_0_r. now rewrite substring_all.
  - destruct s as [|b s]; [discriminate |]. simpl in Hpre.
    destruct (ascii_dec a b) as [<- | _]; [| discriminate].
    cbn [String.length append]. rewrite drop_cons. now rewrite <- (IH s Hpre).
Qed.

Lemma prefix_append (t a b : string) :
  prefix t a = true -> prefix t (a ++ b) = true.
Proof.
  revert a. induction t as [|c t IH]; intros a Hpre.
  - now destruct (a ++ b).
  - destruct a as [|x a]; [discriminate |]. simpl in *.
    destruct (ascii_dec c x); [now apply IH | discriminate].
Qed.

Lemma find_none_intro {A : Type} (f : A -> bool) (l : list A) :
  (forall x, In x l -> f x = false) -> find f l = None.
Proof.
  induction l as [|x l IH]; intros Hall; [reflexivity |]. simpl.
  rewrite (Hall x (or_introl eq_refl)). apply IH. intros y Hy. apply Hall. now right.
Qed.

Section StripPrefix.
Variable toks : list string.
Hypothesis toks_nonempty : forall t, In t toks -> 1 <= String.length t.

(** No token of [toks] begins [s]. *)
Definition stripped (s : string) : Prop :=
  find (fun t => prefix t s) toks = None.

Lemma strip_prefix_stripped (fuel : nat) (s : string) :
  stripped s -> strip_prefix toks fuel s = s.
Proof. intros Hs. destruct fuel; simpl; [reflexivity | now rewrite Hs]. Qed.

Lemma strip_prefix_is_suffix (fuel : nat) (s : string) :
  exists removed, s = removed ++ strip_prefix toks fuel s.
Proof.
  revert s. induction fuel as [|fuel IH]; intros s; [now exists "" |].
  simpl. destruct (find (fun t => prefix t s) toks) as [t|] eqn:Hfind;
    [| now exists ""].
  apply find_some in Hfind as [_ Hpre].
  destruct (IH (drop (String.length t) s)) as [removed Hrem].
  exists (t ++ removed). rewrite append_assoc, <- Hrem. now apply prefix_drop.
Qed.

Lemma strip_prefix_reaches_stripped (fuel : nat) (s : string) :
  String.length s <= fuel -> stripped (strip_prefix toks fuel s).
Proof.
  revert s. induction fuel as [|fuel IH]; intros s Hlen.
  - destruct s; [| simpl in Hlen; lia]. simpl. apply find_none_intro.
    intros t Ht. pose proof (toks_nonempty t Ht). now destruct t.
  - simpl. destruct (find (fun t => prefix t s) toks) as [t|] eqn:Hfind;
      [| exact Hfind].
    apply find_some in Hfind as [Hin Hpre]. apply IH.
    pose proof (toks_nonempty t Hin) as Ht.
    pose proof (f_equal String.length (prefix_drop t s Hpre)) as Hsplit.
    rewrite length_append in Hsplit. lia.
Qed.

Lemma stripped_prefix_of (a b : string) : stripped (a ++ b) -> stripped a.
Proof.
  intros Hab. apply find_none_intro. intros t Ht.
  destruct (prefix t a) eqn:Hpre; [| reflexivity].
  pose proof (find_none _ _ Hab t Ht) as Hno. cbv beta in Hno.
  now rewrite (prefix_append t a b Hpre) in Hno.
Qed.

End StripPrefix.

Lemma reversed_whitespace_nonempty (t : string) :
  In t (map str_rev whitespace) -> 1 <= String.length t.
Proof.
  intros Hin. apply in_map_iff in Hin as [t0 [<- Hin0]].
  rewrite length_str_rev. now apply whitespace_nonempty.
Qed.

Lemma lstrip_stripped (s : string) : stripped whitespace (lstrip s).
Proof.
  apply strip_prefix_reaches_stripped; [exact whitespace_nonempty | lia].
Qed.

Lemma rstrip_is_prefix (s : string) : exists removed, s = rstrip s ++ removed.
Proof.
  unfold rstrip.
  destruct (strip_prefix_is_suffix (map str_rev whitespace) (String.length s)
              (str_rev s)) as [removed Hrem].
  exists (str_rev removed).
  rewrite <- str_rev_app, <- Hrem. now rewrite str_rev_involutive.
Qed.

Lemma rstrip_idempotent (s : string) : rstrip (rstrip s) = rstrip s.
Proof.
  set (r := strip_prefix (map str_rev whitespace) (String.length s) (str_rev s)).
  change (rstrip s) with (str_rev r). unfold rstrip.
  rewrite str_rev_involutive. f_equal. apply strip_prefix_stripped.
  apply strip_prefix_reaches_stripped;
    [exact reversed_whitespace_nonempty | rewrite length_str_rev; lia].
Qed.

Lemma strip_idempotent (s : string) : strip (strip s) = strip s.
Proof.
  unfold strip.
  assert (Hl : lstrip (rstrip (lstrip s)) = rstrip (lstrip s)).
  { unfold lstrip at 1. apply strip_prefix_stripped.
    destruct (rstrip_is_prefix (lstrip s)) as [removed Hrem].
    apply (stripped_prefix_of whitespace _ removed). rewrite <- Hrem.
    apply lstrip_stripped. }
  rewrite Hl. apply rstrip_idempotent.
Qed.

(** ** Asking *)

Section AskProperties.
Context `{PyRuntime}.
Variable cfg : Config.
Variable w : World.

(** [_call_groq] posts once and returns. *)
Lemma call_groq_returns (prompt : string) :
  _call_groq w prompt = (Ok (groq_answer (groq_post w prompt)), [EvGroqPost prompt]).
Proof.
  rewrite call_groq_unfold. unfold requests_post, call, groq_answer.
  destruct (groq_post w prompt) as [connecting msg | msg | r];
    [destruct connecting; reflexivity | reflexivity |].
  cbn [io_bind io_try]. unfold raise_for_status.
  destruct ((400 <=? status_code r)%Z && (status_code r <? 600)%Z);
    [reflexivity |].
  cbn [io_of_result io_bind app].
  pose proof (read_completion_cases r) as Hread.
  destruct (json_body r) as [body|];
    [destruct (first_completion body) as [content|] |];
    try (rewrite Hread; reflexivity);
    destruct Hread as [e [-> [Ht Hh]]]; cbn [io_try app];
    unfold groq_handler; rewrite Ht, Hh; reflexivity.
Qed.

(** [ask] on a loaded index, by outcome of the retrieval. *)
Lemma ask_unfold_ready (vs : FAISS) (history : list Turn) (question : string) (k : Z) :
  ask cfg w question k (chatbot_with vs history) =
  match _retrieve cfg question k (chatbot_with vs history) with
  | (Ok [], _, tr) =>
      (Ok (JString MSG_NOTHING_FOUND), chatbot_with vs history, tr)
  | (Ok (d :: ds), _, tr) =>
      let prompt := _build_prompt question (d :: ds) history in
      let answer := groq_answer (groq_post w prompt) in
      (Ok answer, chatbot_with vs (appended cfg history (question, answer)),
       (tr ++ [EvGroqPost prompt])%list)
  | (Raise e, _, tr) => (Raise e, chatbot_with vs history, tr)
  end.
Proof.
  unfold ask, bind, get_self, ret. simpl.
  destruct (_retrieve cfg question k (chatbot_with vs history))
    as [[r self'] tr] eqn:Hret.
  destruct (retrieve_frame cfg (chatbot_with vs history) self' question k r tr
              eq_refl Hret) as [-> _].
  destruct r as [[|d ds]|e]; simpl.
  - now rewrite app_nil_r.
  - unfold lift. rewrite call_groq_returns. simpl.
    rewrite add_to_history_unfold. reflexivity.
  - reflexivity.
Qed.

Lemma appended_ends_with_new (history : list Turn) (t : Turn) :
  (1 <= MAX_HISTORY_LENGTH cfg)%Z ->
  exists older, appended cfg history t = (older ++ [t])%list.
Proof.
  intros Hmax.
  destruct (appended_fifo cfg history t Hmax) as [evicted [_ [Hlen Hlast]]].
  destruct (appended cfg history t) as [|t0 rest] eqn:Happ.
  - simpl in Hlen. lia.
  - destruct (@exists_last _ (t0 :: rest)) as [older [t' Heq]]; [discriminate |].
    rewrite Heq in Hlast |- *. rewrite last_last in Hlast. subst t'.
    now exists older.
Qed.

(** X1. When retrieval returns at least one chunk, [ask] does not raise: it
    posts exactly one prompt, the one built from the question, the chunks
    and the history as it was before the call, returns what the LLM client
    returned, and leaves the instance that [_add_to_history] gives for the
    turn (question, answer). Its calls are those of the retrieval followed
    by that one post. *)
Theorem ask_answers_and_records (vs : FAISS) (history : list Turn)
    (question : string) (k : Z) (d : Document) (ds : list Document)
    (tr : list event) :
  _retrieve cfg question k (chatbot_with vs history) =
    (Ok (d :: ds), chatbot_with vs history, tr) ->
  let prompt := _build_prompt question (d :: ds) history in
  exists answer,
    _call_groq w prompt = (Ok answer, [EvGroqPost prompt])
    /\ ask cfg w question k (chatbot_with vs history) =
         (Ok answer,
          state_after (_add_to_history cfg question answer)
            (chatbot_with vs history),
          (tr ++ [EvGroqPost prompt])%list).
Proof.
  intros Hret prompt. exists (groq_answer (groq_post w prompt)).
  split; [apply call_groq_returns |].
  rewrite ask_unfold_ready, Hret.
  unfold state_after. rewrite add_to_history_unfold. reflexivity.
Qed.

(** X2. When the request to the LLM times out, [ask] still returns: its
    answer is the fixed timeout message, and with a history maximum of at
    least one turn that message is stored as the answer of the newest turn
    of the history. *)
Theorem ask_records_timeout_message (vs : FAISS) (history : list Turn)
    (question : string) (k : Z) (d : Document) (ds : list Document)
    (tr : list event) (connecting : bool) (msg : string) :
  (1 <= MAX_HISTORY_LENGTH cfg)%Z ->
  _retrieve cfg question k (chatbot_with vs history) =
    (Ok (d :: ds), chatbot_with vs history, tr) ->
  groq_post w (_build_prompt question (d :: ds) history)
    = PostTimeout connecting msg ->
  exists older,
    ask cfg w question k (chatbot_with vs history) =
      (Ok (JString MSG_TIMEOUT),
       chatbot_with vs (older ++ [(question, JString MSG_TIMEOUT)])%list,
       (tr ++ [EvGroqPost (_build_prompt question (d :: ds) history)])%list).
Proof.
  intros Hmax Hret Hpost.
  destruct (appended_ends_with_new history (question, JString MSG_TIMEOUT) Hmax)
    as [older Holder].
  exists older. rewrite ask_unfold_ready, Hret. cbv zeta.
  rewrite Hpost. cbn [groq_answer]. now rewrite Holder.
Qed.

(** X3. [ask] raises exactly when an index is loaded, the scored search
    raises or keeps nothing, and the unfiltered search raises; the exception
    is then the one of the unfiltered search. In every other case it
    returns an answer. *)
Theorem ask_raises_iff (self : RAGChatbot) (question : string) (k : Z) (e : exn) :
  fst (fst (ask cfg w question k self)) = Raise e <->
  exists vs,
    _vectorstore self = Some vs
    /\ fallback_condition cfg vs question k
    /\ similarity_search vs question k = Raise e.
Proof.
  destruct self as [[vs|] history].
  - change {| _vectorstore := Some vs; _history := history |}
      with (chatbot_with vs history).
    rewrite ask_unfold_ready, retrieve_unfold.
    pose proof (fallback_condition_dec cfg vs question k) as Hdec.
    destruct (similarity_search_with_score vs question k) as [pairs|e'].
    + destruct (keep_scored cfg pairs) as [|d ds] eqn:Ekeep.
      * destruct (similarity_search vs question k) as [[|d ds]|e0] eqn:Eplain;
          simpl; split.
        -- discriminate.
        -- intros [vs' [Hvs [_ Hraise]]]. injection Hvs as <-. congruence.
        -- discriminate.
        -- intros [vs' [Hvs [_ Hraise]]]. injection Hvs as <-. congruence.
        -- intros Heq. injection Heq as <-. exists vs.
           repeat split; [now apply Hdec | exact Eplain].
        -- intros [vs' [Hvs [_ Hraise]]]. injection Hvs as <-. congruence.
      * simpl. split; [discriminate |].
        intros [vs' [Hvs [Hfb _]]]. injection Hvs as <-.
        apply Hdec in Hfb. discriminate.
    + destruct (similarity_search vs question k) as [[|d ds]|e0] eqn:Eplain;
        simpl; split.
      * discriminate.
      * intros [vs' [Hvs [_ Hraise]]]. injection Hvs as <-. congruence.
      * discriminate.
      * intros [vs' [Hvs [_ Hraise]]]. injection Hvs as <-. congruence.
      * intros Heq. injection Heq as <-. exists vs.
        repeat split; [now apply Hdec | exact Eplain].
      * intros [vs' [Hvs [_ Hraise]]]. injection Hvs as <-. congruence.
  - simpl. split; [discriminate |]. intros [vs [Hvs _]]. discriminate.
Qed.

End AskProperties.

(** ** History and index across requests *)

Section RunProperties.
Context `{PyRuntime}.
Variable cfg : Config.
Variable w : World.

Lemma new_chatbot_history (cb : RAGChatbot) (tr : list event) :
  new_chatbot cfg w = (Ok cb, tr) -> _history cb = [].
Proof.
  unfold new_chatbot, io_bind, io_ret.
  destruct (load_index cfg (ingest_env w)) as [[vs|e] t]; [| discriminate].
  intros Heq. injection Heq as <- _. reflexivity.
Qed.

(** X4. With [MAX_HISTORY_LENGTH] at least 1, a chatbot as [RAGChatbot()]
    creates it, taken through any sequence of questions, history resets and
    index rebuilds (whether they return or raise), never holds more than
    [MAX_HISTORY_LENGTH] turns. *)
Theorem history_bounded_since_startup (ops : list operation) (cb : RAGChatbot)
    (tr : list event) :
  (1 <= MAX_HISTORY_LENGTH cfg)%Z ->
  new_chatbot cfg w = (Ok cb, tr) ->
  (Z.of_nat (List.length (_history (run cfg w ops cb)))
   <= MAX_HISTORY_LENGTH cfg)%Z.
Proof.
  intros Hmax Hnew. apply run_history_bounded; [exact Hmax |].
  rewrite (new_chatbot_history cb tr Hnew). simpl. lia.
Qed.

(** X5. With [MAX_HISTORY_LENGTH] at least 1, [_add_to_history] never raises
    and keeps a sliding window: the new history is the end of "old history
    followed by the new turn", of length [min (n + 1) MAX_HISTORY_LENGTH];
    the turns it drops are the oldest ones and the new turn is the last. The
    index is not touched. *)
Theorem add_to_history_sliding_window (self : RAGChatbot) (question : string)
    (answer : json) :
  (1 <= MAX_HISTORY_LENGTH cfg)%Z ->
  exists evicted kept,
    _add_to_history cfg question answer self =
      (Ok tt, {| _vectorstore := _vectorstore self;
                 _history := (kept ++ [(question, answer)])%list |}, [])
    /\ _history self = (evicted ++ kept)%list
    /\ List.length (kept ++ [(question, answer)])%list
       = Nat.min (List.length (_history self) + 1)
                 (Z.to_nat (MAX_HISTORY_LENGTH cfg)).
Proof.
  intros Hmax. rewrite add_to_history_unfold.
  destruct (appended_fifo cfg (_history self) (question, answer) Hmax)
    as [evicted [Hsplit [Hlen _]]].
  destruct (appended_ends_with_new cfg (_history self) (question, answer) Hmax)
    as [kept Hkept].
  rewrite Hkept in Hsplit, Hlen |- *.
  exists evicted, kept. repeat split; [| exact Hlen].
  rewrite app_assoc in Hsplit. now apply app_inj_tail in Hsplit.
Qed.

Lemma perform_keeps_index (op : operation) (self : RAGChatbot) :
  is_rebuild op = false ->
  _vectorstore (state_after (perform cfg w op) self) = _vectorstore self.
Proof.
  intros Hop. destruct op as [question k | | file_path save]; simpl;
    [| reflexivity | discriminate].
  assert (E : state_after (bind (ask cfg w question k) (fun _ => ret tt)) self
              = state_after (ask cfg w question k) self).
  { unfold state_after, bind, ret.
    destruct (ask cfg w question k self) as [[[a|e] s] tr]; reflexivity. }
  rewrite E.
  destruct (ask_state cfg w self question k) as [-> | [answer ->]]; reflexivity.
Qed.

(** X6. Questions and history resets never change the index: after any
    sequence of requests that contains no rebuild, the instance holds the
    index it held before, and [info()] (hence the status route) reports what
    it reported before. *)
Theorem index_changes_only_on_rebuild (ops : list operation) (self : RAGChatbot) :
  forallb (fun op => negb (is_rebuild op)) ops = true ->
  _vectorstore (run cfg w ops self) = _vectorstore self
  /\ info (run cfg w ops self) = info self.
Proof.
  intros Hops.
  assert (Hvs : _vectorstore (run cfg w ops self) = _vectorstore self).
  { revert self. induction ops as [|op ops IH]; intros self; [reflexivity |].
    simpl in Hops. apply andb_prop in Hops as [Hop Hrest].
    apply negb_true_iff in Hop. simpl.
    rewrite (IH Hrest). now apply perform_keeps_index. }
  split; [exact Hvs |]. unfold info. now rewrite Hvs.
Qed.

End RunProperties.

(** ** Uploading *)

Section UploadProperties.
Context `{PyRuntime}.
Variable cfg : Config.
Variable w : World.

(** [upload_file] for an accepted extension, by outcome of the write and of
    the ingestion. *)
Lemma upload_unfold (self : RAGChatbot) (file_filename file_content : string)
    (save_index : bool) :
  str_in (upload_ext file_filename) ALLOWED_EXTENSIONS = true ->
  Routes.upload_file cfg w file_filename file_content save_index self =
  match save_upload (ingest_env w) (upload_path cfg file_filename) file_content with
  | Raise e =>
      (if isinstance e OSError then Ok RESPONSE_SAVE_FAILED else Raise e,
       self, [EvSaveUpload (upload_path cfg file_filename)])
  | Ok _ =>
      match ingest_file cfg (ingest_env w) (upload_path cfg file_filename) save_index with
      | (Ok vs, tr) =>
          (Ok (Routes.JSONResponse
                 [("ok", JBool true);
                  ("message",
                   JString ("✅ Fichier « " ++ path_name file_filename
                            ++ " » indexé avec succès."))] 200),
           {| _vectorstore := Some vs; _history := _history self |},
           EvSaveUpload (upload_path cfg file_filename) :: tr)
      | (Raise e, tr) =>
          (Ok (Routes.JSONResponse
                 [("ok", JBool false);
                  ("message", JString ("Erreur d'indexation : " ++ exn_msg e))]
                 500),
           self, EvSaveUpload (upload_path cfg file_filename) :: tr)
      end
  end.
Proof.
  intros Hext. unfold Routes.upload_file.
  fold (upload_ext file_filename). rewrite Hext. cbn [negb].
  fold (upload_path cfg file_filename).
  unfold try_except, bind, lift, call, ret, raise. cbn [fst snd].
  destruct (save_upload (ingest_env w) (upload_path cfg file_filename) file_content)
    as [[]|e].
  - cbn [app]. rewrite rebuild_unfold.
    destruct (ingest_file cfg (ingest_env w) (upload_path cfg file_filename) save_index)
      as [[vs|e] tr]; cbn [app]; now rewrite ?app_nil_r.
  - destruct (isinstance e OSError); reflexivity.
Qed.

(** X7. An upload with an accepted extension whose file is written and
    ingested is answered 200 with [ok] true and a message naming the file;
    the new index has replaced the previous one, the conversation history
    is the one from before the upload, and the file was written before the
    ingestion started. *)
Theorem upload_success (self : RAGChatbot) (file_filename file_content : string)
    (save_index : bool) (vs : FAISS) (tr : list event) :
  str_in (upload_ext file_filename) ALLOWED_EXTENSIONS = true ->
  save_upload (ingest_env w) (upload_path cfg file_filename) file_content = Ok tt ->
  ingest_file cfg (ingest_env w) (upload_path cfg file_filename) save_index
    = (Ok vs, tr) ->
  exists message,
    Routes.upload_file cfg w file_filename file_content save_index self =
      (Ok (Routes.JSONResponse
             [("ok", JBool true); ("message", JString message)] 200),
       {| _vectorstore := Some vs; _history := _history self |},
       EvSaveUpload (upload_path cfg file_filename) :: tr)
    /\ contains (path_name file_filename) message.
Proof.
  intros Hext Hsave Hing. eexists. split.
  - rewrite (upload_unfold self _ _ _ Hext), Hsave, Hing. reflexivity.
  - apply contains_middle.
Qed.

(** X8. Whatever is uploaded, the handler answers 200, 400 or 500, or lets
    an exception of the write that is not an [OSError] through; and unless
    it answers 200 the chatbot is exactly as it was before the upload. *)
Theorem upload_failure_keeps_chatbot (self : RAGChatbot)
    (file_filename file_content : string) (save_index : bool) :
  let '(outcome, self', _) :=
    Routes.upload_file cfg w file_filename file_content save_index self in
  match outcome with
  | Ok response =>
      (response_status response = 200%Z /\ is_ready self' = true
       /\ _history self' = _history self)
      \/ ((response_status response = 400%Z \/ response_status response = 500%Z)
          /\ self' = self)
  | Raise e =>
      self' = self /\ isinstance e OSError = false
      /\ save_upload (ingest_env w) (upload_path cfg file_filename) file_content
         = Raise e
  end.
Proof.
  destruct (str_in (upload_ext file_filename) ALLOWED_EXTENSIONS) eqn:Hext.
  - rewrite (upload_unfold self _ _ _ Hext).
    destruct (save_upload (ingest_env w) (upload_path cfg file_filename) file_content)
      as [[]|e].
    + destruct (ingest_file cfg (ingest_env w) (upload_path cfg file_filename)
                  save_index) as [[vs|e] tr]; simpl; auto.
    + destruct (isinstance e OSError) eqn:Hos; simpl; auto.
  - unfold Routes.upload_file. fold (upload_ext file_filename).
    rewrite Hext. simpl. auto.
Qed.

(** X9. When writing the uploaded file raises an [OSError] (or a subclass),
    the handler answers 500 with the fixed "cannot save" message; any other
    exception of the write leaves the handler. In both cases ingestion is
    not attempted: the only call made is the write. *)
Theorem upload_write_failure (self : RAGChatbot)
    (file_filename file_content : string) (save_index : bool) (e : exn) :
  str_in (upload_ext file_filename) ALLOWED_EXTENSIONS = true ->
  save_upload (ingest_env w) (upload_path cfg file_filename) file_content
    = Raise e ->
  Routes.upload_file cfg w file_filename file_content save_index self =
    (if isinstance e OSError then Ok RESPONSE_SAVE_FAILED else Raise e,
     self, [EvSaveUpload (upload_path cfg file_filename)]).
Proof.
  intros Hext Hsave.
  now rewrite (upload_unfold self _ _ _ Hext), Hsave.
Qed.

(** X10. When the uploaded file is written but its ingestion raises, the
    handler answers 500 with a message that carries the text of the
    exception; the chatbot keeps its previous index and history, and the
    written file is not removed (the write is the first call, and no call
    follows the failed ingestion). *)
Theorem upload_ingestion_failure (self : RAGChatbot)
    (file_filename file_content : string) (save_index : bool) (e : exn)
    (tr : list event) :
  str_in (upload_ext file_filename) ALLOWED_EXTENSIONS = true ->
  save_upload (ingest_env w) (upload_path cfg file_filename) file_content = Ok tt ->
  ingest_file cfg (ingest_env w) (upload_path cfg file_filename) save_index
    = (Raise e, tr) ->
  exists message,
    Routes.upload_file cfg w file_filename file_content save_index self =
      (Ok (Routes.JSONResponse
             [("ok", JBool false); ("message", JString message)] 500),
       self, EvSaveUpload (upload_path cfg file_filename) :: tr)
    /\ contains (exn_msg e) message.
Proof.
  intros Hext Hsave Hing. exists ("Erreur d'indexation : " ++ exn_msg e). split.
  - now rewrite (upload_unfold self _ _ _ Hext), Hsave, Hing.
  - exists "Erreur d'indexation : ", "". now rewrite append_empty_r.
Qed.

(** X11. The file name sent by the client cannot take the write out of the
    upload directory: whenever an upload passes the extension test, the path
    written is [UPLOAD_DIR/name] where [name] holds no ['/'] and is neither
    empty nor ["."] nor [".."]. (For a runtime whose [lower] maps the empty
    string to itself.) *)
Theorem upload_writes_inside_upload_dir (self : RAGChatbot)
    (file_filename file_content : string) (save_index : bool) :
  str_lower "" = "" ->
  str_in (upload_ext file_filename) ALLOWED_EXTENSIONS = true ->
  exists name rest,
    snd (Routes.upload_file cfg w file_filename file_content save_index self)
      = EvSaveUpload (UPLOAD_DIR cfg ++ "/" ++ name) :: rest
    /\ slash_free name = true
    /\ name <> "" /\ name <> "." /\ name <> "..".
Proof.
  intros Hlower Hext.
  assert (Hname : forall bad, path_suffix bad = "" -> path_name file_filename <> bad).
  { intros bad Hbad Heq. unfold upload_ext in Hext.
    rewrite Heq, Hbad, Hlower in Hext. discriminate. }
  exists (path_name file_filename).
  assert (Htrace : exists rest,
             snd (Routes.upload_file cfg w file_filename file_content save_index self)
             = EvSaveUpload (upload_path cfg file_filename) :: rest).
  { rewrite (upload_unfold self _ _ _ Hext).
    destruct (save_upload (ingest_env w) (upload_path cfg file_filename) file_content)
      as [[]|e]; [| now eexists].
    destruct (ingest_file cfg (ingest_env w) (upload_path cfg file_filename)
                save_index) as [[vs|e] tr]; now eexists. }
  destruct Htrace as [rest Hrest]. exists rest.
  split; [exact Hrest |].
  split; [apply path_name_slash_free |].
  repeat split; apply Hname; reflexivity.
Qed.

End UploadProperties.

(** ** Ingestion *)

Section IngestProperties.
Context `{PyRuntime}.
Variable cfg : Config.
Variable env : IngestEnv.

Lemma load_file_cases (file_path : string) :
  match loader_for env file_path with
  | Some loader =>
      exists ev, _load_file env file_path = (loader file_path, [ev])
                 /\ persists ev = false
  | None => exists e, _load_file env file_path = (Raise e, [])
  end.
Proof.
  unfold loader_for, _load_file.
  destruct (String.eqb _ ".txt"); [eexists; split; reflexivity |].
  destruct (String.eqb _ ".pdf"); eexists; try split; reflexivity.
Qed.

(** X12. Ingesting a file with [save_to_disk] false never touches the
    persisted index, whatever happens: no call creates the index directory
    or writes the index. *)
Theorem ingest_file_without_save_never_persists (file_path : string) :
  existsb persists (snd (ingest_file cfg env file_path false)) = false.
Proof.
  unfold ingest_file.
  pose proof (load_file_cases file_path) as Hload.
  destruct (loader_for env file_path) as [loader|].
  - destruct Hload as [ev [-> Hev]].
    destruct (loader file_path) as [[|doc docs]|e]; simpl;
      try (now rewrite Hev).
    unfold io_bind, _split_documents, _get_embeddings, call.
    destruct (split_documents env (doc :: docs)) as [chunks|e]; simpl;
      [| now rewrite Hev].
    destruct (get_embeddings env (EMBEDDING_MODEL cfg)) as [emb|e]; simpl;
      [| now rewrite Hev].
    destruct (from_documents env chunks emb) as [vs|e]; simpl; now rewrite Hev.
  - destruct Hload as [e ->]. reflexivity.
Qed.

(** X13. When [ingest_file] returns an index, that index is the one
    [FAISS.from_documents] built from the chunks of all the documents the
    loader for the file's extension extracted (at least one), with the
    configured embedding model; and when [save_to_disk] is set, the index
    directory was created and the index written, as the last two calls. *)
Theorem ingest_file_success_inversion (file_path : string) (save_to_disk : bool)
    (vs : FAISS) (tr : list event) :
  ingest_file cfg env file_path save_to_disk = (Ok vs, tr) ->
  exists loader doc docs chunks embeddings,
    loader_for env file_path = Some loader
    /\ loader file_path = Ok (doc :: docs)
    /\ split_documents env (doc :: docs) = Ok chunks
    /\ get_embeddings env (EMBEDDING_MODEL cfg) = Ok embeddings
    /\ from_documents env chunks embeddings = Ok vs
    /\ (save_to_disk = true ->
        mkdir_index env (FAISS_INDEX_PATH cfg) = Ok tt
        /\ save_local env vs (FAISS_INDEX_PATH cfg) = Ok tt
        /\ exists before, tr = (before ++ [EvMkdirIndex; EvSaveLocal])%list).
Proof.
  unfold ingest_file. intros Hing.
  pose proof (load_file_cases file_path) as Hload.
  destruct (loader_for env file_path) as [loader|] eqn:Hloader;
    [| destruct Hload as [e Hload]; rewrite Hload in Hing; discriminate].
  destruct Hload as [ev [Hload _]]. rewrite Hload in Hing.
  destruct (loader file_path) as [[|doc docs]|e] eqn:Hdocs; try discriminate.
  unfold io_bind, _split_documents, _get_embeddings, call in Hing.
  destruct (split_documents env (doc :: docs)) as [chunks|e] eqn:Hsplit;
    [| discriminate].
  destruct (get_embeddings env (EMBEDDING_MODEL cfg)) as [emb|e] eqn:Hemb;
    [| discriminate].
  destruct (from_documents env chunks emb) as [vs'|e] eqn:Hbuild; [| discriminate].
  exists loader, doc, docs, chunks, emb.
  destruct save_to_disk.
  - destruct (mkdir_index env (FAISS_INDEX_PATH cfg)) as [[]|e] eqn:Hmkdir;
      [| discriminate].
    destruct (save_local env vs' (FAISS_INDEX_PATH cfg)) as [[]|e] eqn:Hsave;
      [| discriminate].
    simpl in Hing. injection Hing as <- <-.
    repeat (split; [reflexivity || assumption |]).
    try intros _. repeat (split; [reflexivity || assumption |]).
    now exists [ev; EvSplit; EvEmbeddings; EvFromDocuments].
  - simpl in Hing. injection Hing as <- <-.
    repeat (split; [reflexivity || assumption |]). discriminate.
Qed.

(** X14. With [save_to_disk] set, an index that was built but cannot be
    written is lost: when creating the index directory or writing the index
    raises, [ingest_file] raises that exception instead of returning the
    index it has built. *)
Theorem ingest_file_persist_failure (file_path : string) (loader : string -> result (list Document))
    (doc : Document) (docs chunks : list Document) (embeddings : string)
    (vs : FAISS) (e : exn) :
  loader_for env file_path = Some loader ->
  loader file_path = Ok (doc :: docs) ->
  split_documents env (doc :: docs) = Ok chunks ->
  get_embeddings env (EMBEDDING_MODEL cfg) = Ok embeddings ->
  from_documents env chunks embeddings = Ok vs ->
  mkdir_index env (FAISS_INDEX_PATH cfg) = Raise e
  \/ (mkdir_index env (FAISS_INDEX_PATH cfg) = Ok tt
      /\ save_local env vs (FAISS_INDEX_PATH cfg) = Raise e) ->
  fst (ingest_file cfg env file_path true) = Raise e
  /\ exists vs', fst (ingest_file cfg env file_path false) = Ok vs'.
Proof.
  intros Hloader Hdocs Hsplit Hemb Hbuild Hpersist.
  unfold ingest_file.
  pose proof (load_file_cases file_path) as Hload. rewrite Hloader in Hload.
  destruct Hload as [ev [-> _]]. rewrite Hdocs.
  unfold io_bind, _split_documents, _get_embeddings, call.
  rewrite Hsplit, Hemb, Hbuild. split.
  - destruct Hpersist as [-> | [-> ->]]; reflexivity.
  - now exists vs.
Qed.

End IngestProperties.

Section IngestDirectoryProperties.
Context `{PyRuntime}.
Variable cfg : Config.
Variable env : IngestEnv.
Variable DOCUMENTS_PATH : string.
Variable directory_loader : string -> string -> result (list Document).

Lemma ingest_directory_unfold (save_to_disk : bool) :
  ingest_directory cfg env DOCUMENTS_PATH directory_loader save_to_disk =
  match directory_loader DOCUMENTS_PATH "**/*.txt" with
  | Raise e => (Raise e, [EvLoadText DOCUMENTS_PATH])
  | Ok txt =>
      match directory_loader DOCUMENTS_PATH "**/*.pdf" with
      | Raise e => (Raise e, [EvLoadText DOCUMENTS_PATH; EvLoadPdf DOCUMENTS_PATH])
      | Ok pdf =>
          match (txt ++ pdf)%list with
          | [] =>
              (Raise (mk_exn ValueError ("No documents found in " ++ DOCUMENTS_PATH)),
               [EvLoadText DOCUMENTS_PATH; EvLoadPdf DOCUMENTS_PATH])
          | _ :: _ =>
              let '(r, t) := index_documents cfg env (txt ++ pdf)%list save_to_disk in
              (r, ([EvLoadText DOCUMENTS_PATH; EvLoadPdf DOCUMENTS_PATH] ++ t)%list)
          end
      end
  end.
Proof.
  unfold ingest_directory, call. cbn [io_bind].
  destruct (directory_loader DOCUMENTS_PATH "**/*.txt") as [txt|e]; [| reflexivity].
  destruct (directory_loader DOCUMENTS_PATH "**/*.pdf") as [pdf|e]; [| reflexivity].
  cbn [io_bind].
  destruct (txt ++ pdf)%list as [|doc docs]; [reflexivity |].
  unfold index_documents, io_bind, _split_documents, _get_embeddings, call, io_ret.
  repeat match goal with
         | |- context [match ?x with Ok _ => _ | Raise _ => _ end] => destruct x
         | |- context [if ?b then _ else _] => destruct b
         end; reflexivity.
Qed.

Lemma ingest_file_unfold (file_path : string) (save_to_disk : bool)
    (loader : string -> result (list Document)) :
  loader_for env file_path = Some loader ->
  exists ev,
    ingest_file cfg env file_path save_to_disk =
    match loader file_path with
    | Ok [] =>
        (Raise (mk_exn ValueError
                  ("No content could be extracted from " ++ file_path)), [ev])
    | Ok (doc :: docs) =>
        let '(r, t) := index_documents cfg env (doc :: docs) save_to_disk in
        (r, ev :: t)
    | Raise e => (Raise e, [ev])
    end.
Proof.
  intros Hloader.
  pose proof (load_file_cases env file_path) as Hload. rewrite Hloader in Hload.
  destruct Hload as [ev [Hload _]]. exists ev.
  unfold ingest_file. rewrite Hload.
  destruct (loader file_path) as [[|doc docs]|e]; reflexivity.
Qed.

(** X15. When [ingest_directory] returns an index, both directory scans
    succeeded, they found at least one document, and the index is the one
    built from the chunks of the text documents followed by the PDF
    documents, with the configured embedding model. *)
Theorem ingest_directory_success_inversion (save_to_disk : bool) (vs : FAISS)
    (tr : list event) :
  ingest_directory cfg env DOCUMENTS_PATH directory_loader save_to_disk = (Ok vs, tr) ->
  exists txt pdf chunks embeddings,
    directory_loader DOCUMENTS_PATH "**/*.txt" = Ok txt
    /\ directory_loader DOCUMENTS_PATH "**/*.pdf" = Ok pdf
    /\ (txt ++ pdf)%list <> []
    /\ split_documents env (txt ++ pdf)%list = Ok chunks
    /\ get_embeddings env (EMBEDDING_MODEL cfg) = Ok embeddings
    /\ from_documents env chunks embeddings = Ok vs.
Proof.
  rewrite ingest_directory_unfold. intros Hing.
  destruct (directory_loader DOCUMENTS_PATH "**/*.txt") as [txt|e]; [| discriminate].
  destruct (directory_loader DOCUMENTS_PATH "**/*.pdf") as [pdf|e]; [| discriminate].
  exists txt, pdf.
  destruct (txt ++ pdf)%list as [|doc docs] eqn:Hdocs; [discriminate |].
  unfold index_documents, io_bind, _split_documents, _get_embeddings, call in Hing.
  destruct (split_documents env (doc :: docs)) as [chunks|e] eqn:Hsplit;
    [| discriminate].
  destruct (get_embeddings env (EMBEDDING_MODEL cfg)) as [emb|e] eqn:Hemb;
    [| discriminate].
  destruct (from_documents env chunks emb) as [vs'|e] eqn:Hbuild; [| discriminate].
  exists chunks, emb.
  assert (Hvs : vs' = vs).
  { destruct save_to_disk.
    - destruct (mkdir_index env (FAISS_INDEX_PATH cfg)) as [[]|e]; [| discriminate].
      destruct (save_local env vs' (FAISS_INDEX_PATH cfg)) as [[]|e];
        [| discriminate].
      simpl in Hing. now injection Hing as <- _.
    - simpl in Hing. now injection Hing as <- _. }
  subst vs'. repeat (split; [reflexivity || assumption || discriminate |]).
  assumption.
Qed.

(** X16. A documents directory in which neither scan finds a document makes
    [ingest_directory] raise the "No documents found" [ValueError] right
    after the two scans: nothing is split, embedded, indexed or written. *)
Theorem ingest_directory_no_documents (save_to_disk : bool) :
  directory_loader DOCUMENTS_PATH "**/*.txt" = Ok [] ->
  directory_loader DOCUMENTS_PATH "**/*.pdf" = Ok [] ->
  ingest_directory cfg env DOCUMENTS_PATH directory_loader save_to_disk =
    (Raise (mk_exn ValueError ("No documents found in " ++ DOCUMENTS_PATH)),
     [EvLoadText DOCUMENTS_PATH; EvLoadPdf DOCUMENTS_PATH]).
Proof.
  intros Htxt Hpdf.
  rewrite ingest_directory_unfold, Htxt, Hpdf. reflexivity.
Qed.

(** X17. The two ingestion functions treat the documents they have loaded
    in the same way: when the file's loader extracts the documents that the
    two directory scans find (text documents first), [ingest_file] and
    [ingest_directory] have the same outcome, index or exception, on a
    non-empty set of documents. *)
Theorem ingest_file_and_directory_agree (file_path : string) (save_to_disk : bool)
    (loader : string -> result (list Document)) (txt pdf : list Document) :
  loader_for env file_path = Some loader ->
  loader file_path = Ok (txt ++ pdf)%list ->
  directory_loader DOCUMENTS_PATH "**/*.txt" = Ok txt ->
  directory_loader DOCUMENTS_PATH "**/*.pdf" = Ok pdf ->
  (txt ++ pdf)%list <> [] ->
  fst (ingest_file cfg env file_path save_to_disk)
  = fst (ingest_directory cfg env DOCUMENTS_PATH directory_loader save_to_disk).
Proof.
  intros Hloader Hdocs Htxt Hpdf Hne.
  destruct (ingest_file_unfold file_path save_to_disk loader Hloader) as [ev ->].
  rewrite ingest_directory_unfold, Htxt, Hpdf, Hdocs.
  destruct (txt ++ pdf)%list as [|doc docs]; [contradiction |].
  destruct (index_documents cfg env (doc :: docs) save_to_disk) as [r t].
  reflexivity.
Qed.

End IngestDirectoryProperties.

(** ** Startup *)

Section StartupProperties.
Context `{PyRuntime}.
Variable cfg : Config.
Variable w : World.

(** X18. Creating the chatbot raises only when the test of the index
    directory raises (that test is outside the [try]); nothing has been
    loaded then. Otherwise it returns a chatbot with an empty history,
    which is ready exactly when the directory exists and is not empty, the
    embedding model loads and the persisted index loads; a failure of
    either load is swallowed and leaves it not ready. When the directory is
    missing or empty nothing is loaded at all. *)
Theorem new_chatbot_ready_iff :
  let env := ingest_env w in
  let path := FAISS_INDEX_PATH cfg in
  match index_dir_populated env path with
  | Raise e => new_chatbot cfg w = (Raise e, [])
  | Ok populated =>
      exists cb tr,
        new_chatbot cfg w = (Ok cb, tr)
        /\ _history cb = []
        /\ (is_ready cb = true <->
            populated = true
            /\ exists embeddings vs,
                 get_embeddings env (EMBEDDING_MODEL cfg) = Ok embeddings
                 /\ load_local env path embeddings = Ok vs
                 /\ _vectorstore cb = Some vs)
        /\ (populated = false -> tr = [])
  end.
Proof.
  intros env path. unfold new_chatbot, load_index. fold env path.
  destruct (index_dir_populated env path) as [[|]|e]; cbn [io_of_result io_bind negb];
    [| | reflexivity].
  - unfold io_try, io_bind, _get_embeddings, call. fold env.
    destruct (get_embeddings env (EMBEDDING_MODEL cfg)) as [emb|e] eqn:Hemb.
    + destruct (load_local env path emb) as [vs|e] eqn:Hload; simpl;
        eexists; eexists; (split; [reflexivity |]); (split; [reflexivity |]);
        (split; [| discriminate]); simpl; split.
      * intros _. split; [reflexivity |]. now exists emb, vs.
      * reflexivity.
      * discriminate.
      * intros [_ [emb' [vs' [Hemb' [Hload' _]]]]]. congruence.
    + simpl. eexists; eexists; (split; [reflexivity |]); (split; [reflexivity |]);
        (split; [| discriminate]); simpl; split.
      * discriminate.
      * intros [_ [emb' [vs' [Hemb' _]]]]. discriminate.
  - simpl. eexists; eexists; (split; [reflexivity |]); (split; [reflexivity |]).
    split; [| reflexivity]. simpl. split; [discriminate |].
    intros [Hfalse _]. discriminate.
Qed.

End StartupProperties.

(** ** The prompt, continued *)

Lemma contains_join (sep x : string) (l : list string) :
  In x l -> contains x (join sep l).
Proof.
  induction l as [|y l IH]; intros Hin; [contradiction |].
  destruct Hin as [-> | Hin].
  - destruct l as [|z l]; [apply contains_refl |].
    apply contains_append_l, contains_refl.
  - destruct l as [|z l]; [contradiction |].
    change (join sep (y :: z :: l)) with (y ++ sep ++ join sep (z :: l)).
    now apply contains_append_r, contains_append_r, IH.
Qed.

Section PromptContents.
Context `{PyRuntime}.

Lemma passages_In (docs : list Document) (start : nat) (doc : Document) :
  In doc docs -> exists i, In (passage i doc) (passages start docs).
Proof.
  revert start. induction docs as [|d docs IH]; intros start Hin; [contradiction |].
  destruct Hin as [-> | Hin].
  - exists start. now left.
  - destruct (IH (S start) Hin) as [i Hi]. exists i. now right.
Qed.

Lemma history_lines_app (a b : list Turn) (start : nat) :
  history_lines start (a ++ b)%list
  = (history_lines start a ++ history_lines (start + List.length a) b)%list.
Proof.
  revert start. induction a as [|t a IH]; intros start; simpl.
  - now rewrite Nat.add_0_r.
  - rewrite IH. do 3 f_equal. lia.
Qed.

Lemma prompt_contains_history_block (question : string) (docs : list Document)
    (history : list Turn) (sub : string) :
  contains sub (history_block history) ->
  contains sub (_build_prompt question docs history).
Proof.
  intros Hsub. unfold _build_prompt.
  now apply contains_append_r, contains_append_l.
Qed.

(** X19. Only the last three turns of the history reach the prompt: a
    history of more than three turns gives the same prompt as its last
    three turns alone. *)
Theorem build_prompt_uses_last_three_turns (question : string)
    (docs : list Document) (older recent : list Turn) :
  List.length recent = 3 ->
  _build_prompt question docs (older ++ recent)%list
  = _build_prompt question docs recent.
Proof.
  intros Hlen. unfold _build_prompt. do 2 f_equal.
  assert (Hslice : slice_from (-3) (older ++ recent)%list = slice_from (-3) recent).
  { rewrite !slice_last_three, length_app, Hlen.
    replace (List.length older + 3 - 3) with (List.length older + 0) by lia.
    now rewrite skipn_app, Nat.add_0_r, skipn_all, Nat.sub_diag. }
  destruct recent as [|t recent]; [discriminate |].
  unfold history_block. rewrite Hslice.
  destruct (older ++ t :: recent)%list eqn:Happ; [| reflexivity].
  now destruct older.
Qed.

(** X20. The prompt carries what the model needs: the new question, and
    for every retrieved chunk its text under a numbered "Extrait" header. *)
Theorem build_prompt_contains_inputs (question : string) (docs : list Document)
    (history : list Turn) :
  contains ("QUESTION: " ++ question ++ NL) (_build_prompt question docs history)
  /\ forall doc, In doc docs ->
       exists i, contains ("--- Extrait " ++ str_of_nat i ++ source_label doc
                           ++ " ---" ++ NL ++ page_content doc)
                   (_build_prompt question docs history).
Proof.
  unfold _build_prompt. split.
  - do 3 apply contains_append_r. unfold question_section.
    exists "", (NL ++ "RÉPONSE (basée uniquement sur le contexte):").
    simpl. now rewrite !append_assoc.
  - intros doc Hin. destruct (passages_In docs 1 doc Hin) as [i Hi]. exists i.
    do 2 apply contains_append_r. apply contains_append_l.
    unfold context_section. apply contains_append_r, contains_append_r.
    apply contains_append_l. unfold context_block.
    now apply contains_join.
Qed.

Lemma history_block_shows_last_turn (older : list Turn) (t : Turn) :
  exists idx, contains (history_line idx t) (history_block (older ++ [t])%list).
Proof.
  assert (Hslice : exists kept, slice_from (-3) (older ++ [t])%list = (kept ++ [t])%list).
  { rewrite slice_last_three, length_app. cbn [List.length].
    exists (skipn (List.length older + 1 - 3) older).
    rewrite skipn_app.
    replace (List.length older + 1 - 3 - List.length older) with 0 by lia.
    reflexivity. }
  destruct Hslice as [kept Hkept].
  exists (1 + List.length kept).
  destruct (older ++ [t])%list as [|t0 rest] eqn:Happ;
    [now destruct older |].
  unfold history_block. rewrite Hkept, history_lines_app. cbn [history_lines].
  apply contains_append_r, contains_append_r, contains_append_l.
  apply contains_join, in_or_app. right. now left.
Qed.

End PromptContents.

Section ConversationProperties.
Context `{PyRuntime}.
Variable cfg : Config.
Variable w : World.

(** X21. The conversation is remembered from one question to the next: with
    a history maximum of at least one turn, after a question that was
    answered, the prompt posted for the next answered question contains
    that question and its answer, as a "Q/A" pair of the history block. *)
Theorem next_prompt_recalls_last_turn (vs : FAISS) (history : list Turn)
    (q1 q2 : string) (k1 k2 : Z) (d1 d2 : Document) (ds1 ds2 : list Document)
    (tr1 tr2 : list event) :
  (1 <= MAX_HISTORY_LENGTH cfg)%Z ->
  _retrieve cfg q1 k1 (chatbot_with vs history) =
    (Ok (d1 :: ds1), chatbot_with vs history, tr1) ->
  let self1 := state_after (ask cfg w q1 k1) (chatbot_with vs history) in
  _retrieve cfg q2 k2 self1 = (Ok (d2 :: ds2), self1, tr2) ->
  exists a1 prompt2 idx,
    fst (fst (ask cfg w q1 k1 (chatbot_with vs history))) = Ok a1
    /\ snd (ask cfg w q2 k2 self1) = (tr2 ++ [EvGroqPost prompt2])%list
    /\ contains ("Q" ++ str_of_nat idx ++ ": " ++ q1 ++ NL
                 ++ "A" ++ str_of_nat idx ++ ": " ++ py_format a1) prompt2.
Proof.
  intros Hmax Hret1 self1 Hret2.
  set (a1 := groq_answer
               (groq_post w (_build_prompt q1 (d1 :: ds1) history))).
  assert (Hself1 : self1 = chatbot_with vs (appended cfg history (q1, a1))).
  { unfold self1, state_after. now rewrite ask_unfold_ready, Hret1. }
  destruct (appended_ends_with_new cfg history (q1, a1) Hmax) as [older Holder].
  rewrite Holder in Hself1. rewrite Hself1 in Hret2 |- *.
  destruct (history_block_shows_last_turn older (q1, a1)) as [idx Hidx].
  exists a1, (_build_prompt q2 (d2 :: ds2) (older ++ [(q1, a1)])%list), idx.
  split; [now rewrite ask_unfold_ready, Hret1 |].
  split; [now rewrite ask_unfold_ready, Hret2 |].
  now apply prompt_contains_history_block.
Qed.

End ConversationProperties.

(** ** Retrieval and the routes, continued *)

Section RouteProperties2.
Context `{PyRuntime}.
Variable cfg : Config.
Variable w : World.

(** X22. When [_retrieve] answers without the unfiltered search, it returns
    at least one chunk, no more chunks than the engine scored, and every
    chunk it returns was given by the engine a score for which the test
    [score >= RAG_MIN_SCORE] holds, as the runtime evaluates that test (in
    binary64 or in float32, according to the NumPy installed). *)
Theorem retrieve_primary_results_reach_floor (vs : FAISS) (history : list Turn)
    (question : string) (k : Z) (docs : list Document) :
  _retrieve cfg question k (chatbot_with vs history) =
    (Ok docs, chatbot_with vs history, [EvScoredSearch question k]) ->
  exists pairs,
    similarity_search_with_score vs question k = Ok pairs
    /\ docs <> []
    /\ List.length docs <= List.length pairs
    /\ forall doc, In doc docs ->
         exists score, In (doc, score) pairs
                       /\ score_ge score (RAG_MIN_SCORE cfg) = true.
Proof.
  rewrite retrieve_unfold. intros Hret.
  destruct (similarity_search_with_score vs question k) as [pairs|e];
    [| destruct (similarity_search vs question k); discriminate].
  destruct (keep_scored cfg pairs) as [|d ds] eqn:Ekeep;
    [destruct (similarity_search vs question k); discriminate |].
  injection Hret as <-. exists pairs. split; [reflexivity |].
  split; [discriminate |]. rewrite <- Ekeep. unfold keep_scored. split.
  - rewrite length_map. apply filter_length_le.
  - intros doc Hin. apply in_map_iff in Hin as [[doc' score] [Hfst Hin]].
    simpl in Hfst. subst doc'. apply filter_In in Hin as [Hin Hscore].
    now exists score.
Qed.

(** X23. Whitespace around the question does not matter to the [/ask]
    route: a question and its stripped form get the same response, make the
    same calls and leave the same history. *)
Theorem ask_route_ignores_surrounding_whitespace (self : RAGChatbot)
    (question accept : string) :
  Routes.ask cfg w (strip question) accept self
  = Routes.ask cfg w question accept self.
Proof. unfold Routes.ask. now rewrite strip_idempotent. Qed.

(** X24. The Accept header of [/ask] has no part in answering: whatever
    the two headers, the same calls are made (searches, post to the LLM) and
    the chatbot is left in the same state; the header is read only after the
    question was answered and recorded, to choose how the answer is
    rendered. *)
Theorem ask_route_accept_only_renders (self : RAGChatbot)
    (question accept1 accept2 : string) :
  let '(_, self1, tr1) := Routes.ask cfg w question accept1 self in
  let '(_, self2, tr2) := Routes.ask cfg w question accept2 self in
  self1 = self2 /\ tr1 = tr2.
Proof.
  unfold Routes.ask, bind.
  match goal with
  | |- context [(if String.eqb ?q "" then ?a else ?b) self] =>
      destruct ((if String.eqb q "" then a else b) self) as [[[answer|e] s] tr]
  end.
  - unfold get_self, ret.
    destruct (Routes.str_contains "application/json" accept1);
      destruct (Routes.str_contains "application/json" accept2);
      simpl; auto.
  - auto.
Qed.

(** X25. A history reset is complete: with a history maximum of at least
    one turn, the first answered question after [clear_history] is posted
    with a prompt that has no history block (instructions, context,
    question), and the history afterwards holds that one turn only. *)
Theorem ask_after_clear_history (vs : FAISS) (history : list Turn)
    (question : string) (k : Z) (d : Document) (ds : list Document)
    (tr : list event) :
  (1 <= MAX_HISTORY_LENGTH cfg)%Z ->
  let cleared := state_after clear_history (chatbot_with vs history) in
  _retrieve cfg question k cleared = (Ok (d :: ds), cleared, tr) ->
  let prompt := INSTRUCTIONS ++ context_section (d :: ds)
                  ++ question_section question in
  exists answer,
    ask cfg w question k cleared =
      (Ok answer, chatbot_with vs [(question, answer)],
       (tr ++ [EvGroqPost prompt])%list).
Proof.
  intros Hmax cleared Hret prompt.
  change cleared with (chatbot_with vs []) in Hret |- *.
  exists (groq_answer (groq_post w prompt)).
  rewrite ask_unfold_ready, Hret. cbv zeta.
  change (_build_prompt question (d :: ds) []) with prompt.
  do 2 f_equal. unfold appended. simpl.
  destruct (Z.ltb_spec (MAX_HISTORY_LENGTH cfg) 1); [lia | reflexivity].
Qed.

End RouteProperties2.

(** ** The ingestion script *)

Section ScriptProperties.
Variable cfg : Config.
Variable env : IngestEnv.
Variable GROQ_API_KEY : string.
Variable DOCUMENTS_PATH : string.
Variable directory_loader : string -> string -> result (list Document).

Lemma index_documents_saved (docs : list Document) (vs : FAISS) (tr : list event) :
  index_documents cfg env docs true = (Ok vs, tr) <->
  exists chunks embeddings,
    split_documents env docs = Ok chunks
    /\ get_embeddings env (EMBEDDING_MODEL cfg) = Ok embeddings
    /\ from_documents env chunks embeddings = Ok vs
    /\ mkdir_index env (FAISS_INDEX_PATH cfg) = Ok tt
    /\ save_local env vs (FAISS_INDEX_PATH cfg) = Ok tt
    /\ tr = [EvSplit; EvEmbeddings; EvFromDocuments; EvMkdirIndex; EvSaveLocal].
Proof.
  unfold index_documents, io_bind, _split_documents, _get_embeddings, call, io_ret.
  split.
  - intros Hidx.
    destruct (split_documents env docs) as [chunks|e]; [| discriminate].
    destruct (get_embeddings env (EMBEDDING_MODEL cfg)) as [emb|e]; [| discriminate].
    destruct (from_documents env chunks emb) as [vs'|e] eqn:Hbuild; [| discriminate].
    destruct (mkdir_index env (FAISS_INDEX_PATH cfg)) as [[]|e]; [| discriminate].
    destruct (save_local env vs' (FAISS_INDEX_PATH cfg)) as [[]|e] eqn:Hsave;
      [| discriminate].
    simpl in Hidx. injection Hidx as <- <-.
    exists chunks, emb. repeat split; assumption.
  - intros [chunks [emb [-> [-> [-> [-> [-> ->]]]]]]]. reflexivity.
Qed.

(** X26. The ingestion script ends with exit code 0 exactly when the API
    key is set, the index and upload directories could be created, the two
    directory scans succeeded and found at least one document, and the index
    built from their chunks was written to disk. In particular a run that
    ends with code 0 has saved the index. *)
Theorem ingest_script_succeeds_iff :
  fst (fst (ingest_script cfg env GROQ_API_KEY DOCUMENTS_PATH directory_loader))
    = Exit 0
  <->
  GROQ_API_KEY <> ""
  /\ mkdir_index env (FAISS_INDEX_PATH cfg) = Ok tt
  /\ mkdir_index env (UPLOAD_DIR cfg) = Ok tt
  /\ exists txt pdf chunks embeddings vs,
       directory_loader DOCUMENTS_PATH "**/*.txt" = Ok txt
       /\ directory_loader DOCUMENTS_PATH "**/*.pdf" = Ok pdf
       /\ (txt ++ pdf)%list <> []
       /\ split_documents env (txt ++ pdf)%list = Ok chunks
       /\ get_embeddings env (EMBEDDING_MODEL cfg) = Ok embeddings
       /\ from_documents env chunks embeddings = Ok vs
       /\ save_local env vs (FAISS_INDEX_PATH cfg) = Ok tt.
Proof.
  unfold ingest_script, validate, _ensure_dirs.
  rewrite ingest_directory_unfold. split.
  - intros Hexit.
    destruct (String.eqb_spec GROQ_API_KEY "") as [Hkey | Hkey];
      [simpl in Hexit; discriminate |].
    destruct (mkdir_index env (FAISS_INDEX_PATH cfg)) as [[]|e] eqn:Hmk1;
      [| simpl in Hexit; destruct (isinstance e OSError); discriminate].
    destruct (mkdir_index env (UPLOAD_DIR cfg)) as [[]|e] eqn:Hmk2;
      [| simpl in Hexit; destruct (isinstance e OSError); discriminate].
    repeat (split; [assumption || reflexivity |]).
    destruct (directory_loader DOCUMENTS_PATH "**/*.txt") as [txt|e];
      [| simpl in Hexit; destruct (is_value_error e); discriminate].
    destruct (directory_loader DOCUMENTS_PATH "**/*.pdf") as [pdf|e];
      [| simpl in Hexit; destruct (is_value_error e); discriminate].
    exists txt, pdf.
    destruct (txt ++ pdf)%list as [|doc docs] eqn:Hdocs;
      [simpl in Hexit; discriminate |].
    destruct (index_documents cfg env (doc :: docs) true) as [[vs|e] tr] eqn:Hidx;
      [| simpl in Hexit; destruct (is_value_error e); discriminate].
    apply index_documents_saved in Hidx
      as [chunks [emb [Hsplit [Hemb [Hbuild [_ [Hsave _]]]]]]].
    exists chunks, emb, vs.
    repeat (split; [reflexivity || assumption || discriminate |]). assumption.
  - intros [Hkey [Hmk1 [Hmk2 [txt [pdf [chunks [emb [vs
             [Htxt [Hpdf [Hne [Hsplit [Hemb [Hbuild Hsave]]]]]]]]]]]]]].
    destruct (String.eqb_spec GROQ_API_KEY "") as [Heq | _]; [contradiction |].
    rewrite Hmk1, Hmk2, Htxt, Hpdf.
    destruct (txt ++ pdf)%list as [|doc docs] eqn:Hdocs; [contradiction |].
    assert (Hidx : index_documents cfg env (doc :: docs) true
                   = (Ok vs, [EvSplit; EvEmbeddings; EvFromDocuments;
                              EvMkdirIndex; EvSaveLocal])).
    { apply index_documents_saved. exists chunks, emb. now repeat split. }
    rewrite Hidx. reflexivity.
Qed.

End ScriptProperties.
(** * Concrete runs *)

#[local] Existing Instance ascii_runtime.

Lemma ask_without_context_witness :
  ask default_config world_ok "Where?" 4 chatbot_empty =
    (Ok (JString MSG_NOT_READY), chatbot_empty, [])
  /\ ask default_config world_ok "Where?" 4 (chatbot_with index_blank one_turn) =
       (Ok (JString MSG_NOTHING_FOUND), chatbot_with index_blank one_turn,
        [EvScoredSearch "Where?" 4; EvPlainSearch "Where?" 4]).
Proof.
  split.
  - apply (proj1 (ask_without_context default_config world_ok
                    chatbot_empty "Where?" 4)).
    reflexivity.
  - apply (proj2 (ask_without_context default_config world_ok
                    (chatbot_with index_blank one_turn) "Where?" 4)
             (chatbot_with index_blank one_turn)
             [EvScoredSearch "Where?" 4; EvPlainSearch "Where?" 4]);
      reflexivity.
Defined.

(** C2. With [MAX_HISTORY_LENGTH = 0] the trimming slice [history[-0:]] is
    the whole list, so nothing is evicted: after two answered questions the
    history holds both turns and is longer than the configured maximum. *)
Theorem history_exceeds_zero_maximum :
  let self := run blank_history_config world_ok
                [OpAsk "Where?" 4; OpAsk "When?" 4]
                (chatbot_with index_paris []) in
  _history self = [("Where?", JString "Paris."); ("When?", JString "Paris.")]
  /\ (MAX_HISTORY_LENGTH blank_history_config
      < Z.of_nat (List.length (_history self)))%Z.
Proof.
  intros self.
  assert (Hrun : _history self =
                 [("Where?", JString "Paris."); ("When?", JString "Paris.")])
    by (vm_compute; reflexivity).
  split; [exact Hrun |].
  rewrite Hrun. simpl. lia.
Qed.

Lemma retrieve_fallback_exactly_witness :
  _retrieve default_config "Where?" 4 (chatbot_with index_blank []) =
    (Ok [], chatbot_with index_blank [],
     [EvScoredSearch "Where?" 4; EvPlainSearch "Where?" 4])
  /\ fallback_condition default_config index_blank "Where?" 4
  /\ _retrieve default_config "Where?" 4 (chatbot_with index_mixed []) =
       (Ok [doc_paris; doc_rome], chatbot_with index_mixed [],
        [EvScoredSearch "Where?" 4]).
Proof.
  assert (Hfb : fallback_condition default_config index_blank "Where?" 4).
  { right. exists [(doc_paris, 0.25%float)]. split; [reflexivity |].
    intros p [<- | []]. reflexivity. }
  split; [| split; [exact Hfb |]].
  - pose proof (retrieve_fallback_exactly default_config index_blank [] "Where?" 4)
      as Hspec.
    cbv zeta in Hspec.
    destruct (_retrieve default_config "Where?" 4 (chatbot_with index_blank []))
      as [[outcome self'] trace].
    destruct Hspec as [-> [_ [Hfall _]]].
    destruct (Hfall Hfb) as [-> [-> _]]. reflexivity.
  - assert (Hprimary : ~ fallback_condition default_config index_mixed "Where?" 4).
    { intros [[e He] | [pairs [Hpairs Hall]]]; [discriminate He |].
      injection Hpairs as <-.
      specialize (Hall (doc_paris, 0.875%float) (or_introl eq_refl)).
      discriminate Hall. }
    pose proof (retrieve_fallback_exactly default_config index_mixed [] "Where?" 4)
      as Hspec.
    cbv zeta in Hspec.
    destruct (_retrieve default_config "Where?" 4 (chatbot_with index_mixed []))
      as [[outcome self'] trace].
    destruct Hspec as [-> [_ [_ Hmain]]].
    destruct (Hmain Hprimary) as [pairs [docs [Hpairs [-> [_ [Hkept [_ ->]]]]]]].
    injection Hpairs as <-.
    assert (Hdocs : docs = [doc_paris; doc_rome]).
    { apply (kept_in_order_unique default_config _ _ _ Hkept).
      apply kept_keep; [reflexivity |].
      apply kept_drop; [reflexivity |].
      apply kept_keep; [reflexivity |].
      apply kept_nil. }
    rewrite Hdocs. reflexivity.
Defined.

Lemma rebuild_all_or_nothing_witness :
  rebuild_from_file default_config world_index_fails "uploads/doc.txt" false
    (chatbot_with index_blank one_turn) =
    (Raise (mk_exn RuntimeError "embedding failed"),
     chatbot_with index_blank one_turn,
     [EvLoadText "uploads/doc.txt"; EvSplit; EvEmbeddings; EvFromDocuments])
  /\ rebuild_from_file default_config world_ok "uploads/doc.txt" false
       (chatbot_with index_blank one_turn) =
       (Ok tt, chatbot_with index_paris one_turn,
        [EvLoadText "uploads/doc.txt"; EvSplit; EvEmbeddings; EvFromDocuments]).
Proof.
  split.
  - apply (proj1 (rebuild_all_or_nothing default_config world_index_fails
                    (chatbot_with index_blank one_turn) "uploads/doc.txt" false)).
    reflexivity.
  - apply (proj1 (proj2 (rebuild_all_or_nothing default_config world_ok
                           (chatbot_with index_blank one_turn)
                           "uploads/doc.txt" false))).
    reflexivity.
Defined.

Lemma upload_rejects_unsupported_extension_witness :
  str_in ".docx" ALLOWED_EXTENSIONS = false
  /\ exists message,
       Routes.upload_file default_config world_ok "tmp/report.DOCX" "data" false
         (chatbot_with index_paris one_turn) =
       (Ok (Routes.JSONResponse
              [("ok", JBool false); ("message", JString message)] 400),
        chatbot_with index_paris one_turn, [])
       /\ contains ".docx" message.
Proof.
  split; [reflexivity |].
  exact (upload_rejects_unsupported_extension default_config world_ok
           (chatbot_with index_paris one_turn) "tmp/report.DOCX" "data" false
           eq_refl).
Defined.

Lemma ask_route_blank_question_witness :
  Routes.ask default_config world_ok "   " "application/json"
    (chatbot_with index_paris one_turn) =
  (Ok (Routes.JSONResponse
         [("answer", JString Routes.MSG_EMPTY_QUESTION); ("question", JString "")]
         200),
   chatbot_with index_paris one_turn, []).
Proof.
  apply (ask_route_blank_question default_config world_ok
           (chatbot_with index_paris one_turn) "   " "application/json").
  apply (aw_char " " "  "); [simpl; tauto |].
  apply (aw_char " " " "); [simpl; tauto |].
  apply (aw_char " " ""); [simpl; tauto |].
  apply aw_empty.
Defined.

Lemma ask_propagates_search_failure_witness :
  ask default_config world_ok "Where?" 4 (chatbot_with index_broken one_turn) =
  (Raise (mk_exn RuntimeError "plain search failed"),
   chatbot_with index_broken one_turn,
   [EvScoredSearch "Where?" 4; EvPlainSearch "Where?" 4]).
Proof.
  apply (ask_propagates_search_failure default_config world_ok index_broken
           one_turn "Where?" 4).
  - left. eexists. reflexivity.
  - reflexivity.
Defined.

(** A 304 response is not a 2xx response, yet [raise_for_status] lets it
    through: the answer is the generic message, not "API error (304)". *)
Lemma call_groq_304_is_not_api_error :
  groq_post world_304 "Where?" =
    PostResponse {| status_code := 304; text := ""; json_body := None |}
  /\ ((200 <=? 304)%Z && (304 <? 300)%Z = false)
  /\ _call_groq world_304 "Where?" =
       (Ok (JString MSG_UNEXPECTED), [EvGroqPost "Where?"])
  /\ JString MSG_UNEXPECTED <> JString (MSG_API_ERROR 304).
Proof.
  repeat split.
  intros Heq. vm_compute in Heq. discriminate Heq.
Qed.

(** With a non-empty history the prompt puts the history block before the
    context block: it is not the layout "instructions, context, history,
    question". *)
Lemma build_prompt_is_not_spec_layout :
  _build_prompt "Where?" [doc_paris] one_turn =
    INSTRUCTIONS ++ history_block one_turn ++ context_section [doc_paris]
      ++ question_section "Where?"
  /\ String.eqb (_build_prompt "Where?" [doc_paris] one_turn)
                (spec_layout "Where?" [doc_paris] one_turn) = false
  /\ _build_prompt "Where?" [doc_paris] one_turn
     <> spec_layout "Where?" [doc_paris] one_turn.
Proof.
  assert (Hneq : String.eqb (_build_prompt "Where?" [doc_paris] one_turn)
                            (spec_layout "Where?" [doc_paris] one_turn) = false)
    by (vm_compute; reflexivity).
  split; [reflexivity |]. split; [exact Hneq |].
  now apply String.eqb_neq.
Qed.

(** The floor test is the runtime's: a score equal to float32(0.7) passes a
    floor of 0.7 when NumPy compares in float32 and fails it when NumPy
    compares in binary64, where the unfiltered search answers instead. *)
Lemma retrieve_floor_test_follows_runtime :
  @_retrieve numpy2_runtime floor_07_config "Where?" 4 (chatbot_with index_boundary []) =
    (Ok [doc_paris], chatbot_with index_boundary [], [EvScoredSearch "Where?" 4])
  /\ @_retrieve ascii_runtime floor_07_config "Where?" 4 (chatbot_with index_boundary []) =
       (Ok [doc_lyon], chatbot_with index_boundary [],
        [EvScoredSearch "Where?" 4; EvPlainSearch "Where?" 4]).
Proof. split; vm_compute; reflexivity. Qed.

(** Without an index, the chatbot object of the status response has the
    readiness entry only: no embedding model name. *)
Lemma status_without_index_omits_embedding_model :
  Routes.status chatbot_empty =
    (Ok [("status", JString "ok");
         ("chatbot", JObject [("status", JString "no_document")])],
     chatbot_empty, [])
  /\ lookup "embedding_model" (info chatbot_empty) = None.
Proof. split; reflexivity. Qed.

Lemma build_prompt_layout_witness :
  history_block four_turns =
    "HISTORIQUE RÉCENT:" ++ NL
    ++ join (NL ++ NL)
         ["Q1: q2" ++ NL ++ "A1: a2"; "Q2: q3" ++ NL ++ "A2: a3";
          "Q3: q4" ++ NL ++ "A3: a4"]
    ++ NL ++ NL
  /\ nth_error (passages 1 [doc_paris; doc_paris]) 1 =
       Some ("--- Extrait 2 [Source: doc.txt] ---" ++ NL
             ++ "Paris is the capital of France.").
Proof.
  pose proof (build_prompt_layout "Where?" [doc_paris; doc_paris] four_turns)
    as [_ [_ [Hpassage [_ Hhistory]]]].
  split.
  - destruct Hhistory as [Hblock _]; [discriminate |].
    rewrite Hblock. reflexivity.
  - destruct (Hpassage 1 doc_paris eq_refl) as [Hnth _].
    rewrite Hnth. reflexivity.
Defined.

(** * Concrete runs, continued *)

Lemma ask_answers_and_records_witness :
  exists answer,
    _call_groq world_ok (_build_prompt "Where?" [doc_paris] one_turn)
      = (Ok answer, [EvGroqPost (_build_prompt "Where?" [doc_paris] one_turn)])
    /\ ask default_config world_ok "Where?" 4 (chatbot_with index_paris one_turn) =
         (Ok answer,
          state_after (_add_to_history default_config "Where?" answer)
            (chatbot_with index_paris one_turn),
          ([EvScoredSearch "Where?" 4]
             ++ [EvGroqPost (_build_prompt "Where?" [doc_paris] one_turn)])%list).
Proof.
  exact (ask_answers_and_records default_config world_ok index_paris one_turn
           "Where?" 4 doc_paris [] [EvScoredSearch "Where?" 4] eq_refl).
Defined.

Lemma ask_records_timeout_message_witness :
  exists older,
    ask default_config world_timeout "Where?" 4 (chatbot_with index_paris one_turn) =
      (Ok (JString MSG_TIMEOUT),
       chatbot_with index_paris (older ++ [("Where?", JString MSG_TIMEOUT)])%list,
       ([EvScoredSearch "Where?" 4]
          ++ [EvGroqPost (_build_prompt "Where?" [doc_paris] one_turn)])%list).
Proof.
  refine (ask_records_timeout_message default_config world_timeout index_paris
            one_turn "Where?" 4 doc_paris [] [EvScoredSearch "Where?" 4]
            false "Read timed out." _ eq_refl eq_refl).
  simpl. lia.
Defined.

Lemma history_bounded_since_startup_witness :
  (Z.of_nat
     (List.length
        (_history
           (run default_config world_ok
              [OpRebuild "uploads/doc.txt" false;
               OpAsk "1" 4; OpAsk "2" 4; OpAsk "3" 4; OpAsk "4" 4;
               OpAsk "5" 4; OpAsk "6" 4; OpAsk "7" 4; OpAsk "8" 4]
              chatbot_empty)))
   <= MAX_HISTORY_LENGTH default_config)%Z.
Proof.
  refine (history_bounded_since_startup default_config world_ok _ chatbot_empty []
            _ eq_refl).
  simpl. lia.
Defined.

Lemma add_to_history_sliding_window_witness :
  exists evicted kept,
    _add_to_history (with_max_history 3 default_config) "q5" (JString "a5")
      (chatbot_with index_paris four_turns) =
      (Ok tt, {| _vectorstore := Some index_paris;
                 _history := (kept ++ [("q5", JString "a5")])%list |}, [])
    /\ four_turns = (evicted ++ kept)%list
    /\ List.length (kept ++ [("q5", JString "a5")])%list = Nat.min (4 + 1) 3.
Proof.
  refine (add_to_history_sliding_window (with_max_history 3 default_config)
            (chatbot_with index_paris four_turns) "q5" (JString "a5") _).
  simpl. lia.
Defined.

Lemma index_changes_only_on_rebuild_witness :
  _vectorstore (run default_config world_ok
                  [OpAsk "Where?" 4; OpClearHistory; OpAsk "When?" 4]
                  (chatbot_with index_paris one_turn))
    = Some index_paris
  /\ info (run default_config world_ok
             [OpAsk "Where?" 4; OpClearHistory; OpAsk "When?" 4]
             (chatbot_with index_paris one_turn))
     = info (chatbot_with index_paris one_turn).
Proof.
  exact (index_changes_only_on_rebuild default_config world_ok
           [OpAsk "Where?" 4; OpClearHistory; OpAsk "When?" 4]
           (chatbot_with index_paris one_turn) eq_refl).
Defined.

Lemma upload_success_witness :
  exists message,
    Routes.upload_file default_config world_ok "tmp/Report.TXT" "data" false
      (chatbot_with index_blank one_turn) =
      (Ok (Routes.JSONResponse
             [("ok", JBool true); ("message", JString message)] 200),
       {| _vectorstore := Some index_paris; _history := one_turn |},
       EvSaveUpload "uploads/Report.TXT"
         :: [EvLoadText "uploads/Report.TXT"; EvSplit; EvEmbeddings;
             EvFromDocuments])
    /\ contains "Report.TXT" message.
Proof.
  exact (upload_success default_config world_ok
           (chatbot_with index_blank one_turn) "tmp/Report.TXT" "data" false
           index_paris
           [EvLoadText "uploads/Report.TXT"; EvSplit; EvEmbeddings; EvFromDocuments]
           eq_refl eq_refl eq_refl).
Defined.

Lemma upload_write_failure_witness :
  Routes.upload_file default_config world_disk_full "doc.txt" "data" false
    (chatbot_with index_blank one_turn) =
    (Ok RESPONSE_SAVE_FAILED, chatbot_with index_blank one_turn,
     [EvSaveUpload "uploads/doc.txt"]).
Proof.
  exact (upload_write_failure default_config world_disk_full
           (chatbot_with index_blank one_turn) "doc.txt" "data" false
           (mk_exn PermissionError "Permission denied") eq_refl eq_refl).
Defined.

Lemma upload_ingestion_failure_witness :
  exists message,
    Routes.upload_file default_config world_index_fails "doc.txt" "data" false
      (chatbot_with index_blank one_turn) =
      (Ok (Routes.JSONResponse
             [("ok", JBool false); ("message", JString message)] 500),
       chatbot_with index_blank one_turn,
       EvSaveUpload "uploads/doc.txt"
         :: [EvLoadText "uploads/doc.txt"; EvSplit; EvEmbeddings; EvFromDocuments])
    /\ contains "embedding failed" message.
Proof.
  exact (upload_ingestion_failure default_config world_index_fails
           (chatbot_with index_blank one_turn) "doc.txt" "data" false
           (mk_exn RuntimeError "embedding failed")
           [EvLoadText "uploads/doc.txt"; EvSplit; EvEmbeddings; EvFromDocuments]
           eq_refl eq_refl eq_refl).
Defined.

Lemma upload_writes_inside_upload_dir_witness :
  exists name rest,
    snd (Routes.upload_file default_config world_ok "../../etc/passwd.txt" "data"
           false chatbot_empty)
      = EvSaveUpload ("uploads" ++ "/" ++ name) :: rest
    /\ slash_free name = true
    /\ name <> "" /\ name <> "." /\ name <> "..".
Proof.
  exact (upload_writes_inside_upload_dir default_config world_ok chatbot_empty
           "../../etc/passwd.txt" "data" false eq_refl eq_refl).
Defined.

Lemma ingest_file_success_inversion_witness :
  exists loader doc docs chunks embeddings,
    loader_for env_ok "uploads/doc.PDF" = Some loader
    /\ loader "uploads/doc.PDF" = Ok (doc :: docs)
    /\ split_documents env_ok (doc :: docs) = Ok chunks
    /\ get_embeddings env_ok (EMBEDDING_MODEL default_config) = Ok embeddings
    /\ from_documents env_ok chunks embeddings = Ok index_paris
    /\ (true = true ->
        mkdir_index env_ok (FAISS_INDEX_PATH default_config) = Ok tt
        /\ save_local env_ok index_paris (FAISS_INDEX_PATH default_config) = Ok tt
        /\ exists before,
             [EvLoadPdf "uploads/doc.PDF"; EvSplit; EvEmbeddings; EvFromDocuments;
              EvMkdirIndex; EvSaveLocal]
             = (before ++ [EvMkdirIndex; EvSaveLocal])%list).
Proof.
  exact (ingest_file_success_inversion default_config env_ok "uploads/doc.PDF"
           true index_paris
           [EvLoadPdf "uploads/doc.PDF"; EvSplit; EvEmbeddings; EvFromDocuments;
            EvMkdirIndex; EvSaveLocal]
           eq_refl).
Defined.

Lemma ingest_file_persist_failure_witness :
  fst (ingest_file default_config env_disk_full "uploads/doc.txt" true)
    = Raise (mk_exn OSError "No space left on device")
  /\ exists vs', fst (ingest_file default_config env_disk_full "uploads/doc.txt" false)
                 = Ok vs'.
Proof.
  refine (ingest_file_persist_failure default_config env_disk_full
            "uploads/doc.txt" (text_loader env_disk_full) doc_paris []
            [doc_paris] "all-MiniLM-L6-v2" index_paris
            (mk_exn OSError "No space left on device")
            eq_refl eq_refl eq_refl eq_refl eq_refl _).
  right. split; reflexivity.
Defined.

Lemma ingest_directory_success_inversion_witness :
  exists txt pdf chunks embeddings,
    directory_one_text "data/documents" "**/*.txt" = Ok txt
    /\ directory_one_text "data/documents" "**/*.pdf" = Ok pdf
    /\ (txt ++ pdf)%list <> []
    /\ split_documents env_ok (txt ++ pdf)%list = Ok chunks
    /\ get_embeddings env_ok (EMBEDDING_MODEL default_config) = Ok embeddings
    /\ from_documents env_ok chunks embeddings = Ok index_paris.
Proof.
  exact (ingest_directory_success_inversion default_config env_ok "data/documents"
           directory_one_text true index_paris
           [EvLoadText "data/documents"; EvLoadPdf "data/documents"; EvSplit;
            EvEmbeddings; EvFromDocuments; EvMkdirIndex; EvSaveLocal]
           eq_refl).
Defined.

Lemma ingest_directory_no_documents_witness :
  ingest_directory default_config env_ok "data/documents" directory_empty true =
    (Raise (mk_exn ValueError ("No documents found in " ++ "data/documents")),
     [EvLoadText "data/documents"; EvLoadPdf "data/documents"]).
Proof.
  exact (ingest_directory_no_documents default_config env_ok "data/documents"
           directory_empty true eq_refl eq_refl).
Defined.

Lemma ingest_file_and_directory_agree_witness :
  fst (ingest_file default_config env_ok "data/documents/doc.txt" true)
  = fst (ingest_directory default_config env_ok "data/documents"
           directory_one_text true).
Proof.
  refine (ingest_file_and_directory_agree default_config env_ok "data/documents"
            directory_one_text "data/documents/doc.txt" true (text_loader env_ok)
            [doc_paris] [] eq_refl eq_refl eq_refl eq_refl _).
  discriminate.
Defined.

Lemma build_prompt_uses_last_three_turns_witness :
  _build_prompt "Where?" [doc_paris] ([("q1", JString "a1")] ++ skipn 1 four_turns)%list
  = _build_prompt "Where?" [doc_paris] (skipn 1 four_turns).
Proof.
  exact (build_prompt_uses_last_three_turns "Where?" [doc_paris]
           [("q1", JString "a1")] (skipn 1 four_turns) eq_refl).
Defined.

Lemma next_prompt_recalls_last_turn_witness :
  exists a1 prompt2 idx,
    fst (fst (ask default_config world_ok "Where?" 4 (chatbot_with index_paris [])))
      = Ok a1
    /\ snd (ask default_config world_ok "When?" 4
              (state_after (ask default_config world_ok "Where?" 4)
                 (chatbot_with index_paris [])))
       = ([EvScoredSearch "When?" 4] ++ [EvGroqPost prompt2])%list
    /\ contains ("Q" ++ str_of_nat idx ++ ": " ++ "Where?" ++ NL
                 ++ "A" ++ str_of_nat idx ++ ": " ++ py_format a1) prompt2.
Proof.
  refine (next_prompt_recalls_last_turn default_config world_ok index_paris []
            "Where?" "When?" 4 4 doc_paris doc_paris [] []
            [EvScoredSearch "Where?" 4] [EvScoredSearch "When?" 4]
            _ eq_refl eq_refl).
  simpl. lia.
Defined.

Lemma retrieve_primary_results_reach_floor_witness :
  exists pairs,
    similarity_search_with_score index_paris "Where?" 4 = Ok pairs
    /\ [doc_paris] <> []
    /\ List.length [doc_paris] <= List.length pairs
    /\ forall doc, In doc [doc_paris] ->
         exists score, In (doc, score) pairs
                       /\ score_ge score (RAG_MIN_SCORE default_config) = true.
Proof.
  exact (retrieve_primary_results_reach_floor default_config index_paris one_turn
           "Where?" 4 [doc_paris] eq_refl).
Defined.

Lemma ask_after_clear_history_witness :
  exists answer,
    ask default_config world_ok "Where?" 4
      (state_after clear_history (chatbot_with index_paris four_turns)) =
      (Ok answer, chatbot_with index_paris [("Where?", answer)],
       ([EvScoredSearch "Where?" 4]
          ++ [EvGroqPost (INSTRUCTIONS ++ context_section [doc_paris]
                            ++ question_section "Where?")])%list).
Proof.
  refine (ask_after_clear_history default_config world_ok index_paris four_turns
            "Where?" 4 doc_paris [] [EvScoredSearch "Where?" 4] _ eq_refl).
  simpl. lia.
Defined.
